(** * Ordered child collections of the specification-management backend

    A shallow embedding of the repository layer of the backend
    (src/backend/src/db/repositories, src/backend/src/db/models and
    src/backend/src/utils) together with the properties of its ordered
    collections: items inside a specification, specifications inside a
    project, projects of an owner.

    Tables are lists of rows in insertion order, integers are [Z], Python
    exceptions are an explicit error type and every repository method is a
    function from the database to a result carrying the value returned and the
    database afterwards.  Timestamps ([created_at], [updated_at]) and logging
    are left out: no property below reads them.

    The repositories run on SQLAlchemy over PostgreSQL (config/database.py)
    and on a redis-py client.  Where a method's outcome is decided by what
    these libraries do with the query or command it issues, that behaviour
    is written out in the modules [Orm] and [Redis] below, which are not
    code of this repository. *)

From Stdlib Require Import ZArith List String Ascii Bool Lia Permutation Sorted Relations.
Import ListNotations.
Open Scope string_scope.
Open Scope list_scope.
Open Scope Z_scope.

(** ** Exceptions and results *)

(** The exception classes the repository code raises or lets through.  The
    last five are raised by the libraries under the repositories
    ([sqlalchemy.exc.NotSupportedError], [InvalidRequestError] and
    [DataError], [redis.exceptions.RedisError], the interpreter's
    [TypeError]); their messages are the libraries' own and are left out. *)
Inductive exn : Type :=
| ValueError (msg : string)
| PermissionError (msg : string)
| IntegrityError (msg : string)
| NotSupportedError
| InvalidRequestError
| DataError
| RedisError
| TypeError.

Inductive result (A : Type) : Type :=
| Ok (a : A)
| Raise (e : exn).

Arguments Ok {A} a.
Arguments Raise {A} e.

Definition bind {A B : Type} (r : result A) (k : A -> result B) : result B :=
  match r with
  | Ok a => k a
  | Raise e => Raise e
  end.

Notation "x <- c ;; k" := (bind c (fun x => k))
  (at level 61, c at next level, right associativity).

Definition raises {A : Type} (r : result A) : Prop := exists e, r = Raise e.

(** ** utils/constants.py *)

Module DATABASE_CONSTANTS.
Definition MAX_ITEMS_PER_SPECIFICATION : Z := 10.
Definition MAX_TITLE_LENGTH : Z := 255.
Definition MAX_CONTENT_LENGTH : Z := 1000.
Definition MIN_ORDER_INDEX : Z := 0.
Definition MAX_ORDER_INDEX : Z := 1000.
Definition MAX_SPECIFICATIONS_PER_PROJECT : Z := 100.
End DATABASE_CONSTANTS.

Module ERROR_MESSAGES.
Definition UNAUTHORIZED_ACCESS : string := "Unauthorized access to resource".
Definition MAX_ITEMS_REACHED : string :=
  "Maximum number of items (10) reached for specification".
Definition INVALID_ORDER_INDEX : string :=
  "Order index must be between 0 and 1000".
Definition PROJECT_ACCESS_DENIED : string := "Access denied to project".
End ERROR_MESSAGES.

(** ** utils/validators.py *)

Module Validators.

Definition MAX_ITEMS_PER_SPECIFICATION : Z := 10.
Definition MAX_CONTENT_LENGTH : Z := 1000.
Definition MIN_CONTENT_LENGTH : Z := 1.

(** Characters are code points below 256.  [is_space] is Python's
    [str.isspace] on that range: tab to carriage return, the four
    separators 28..31, space, NEL and the no-break space. *)
Definition is_space (c : ascii) : bool :=
  let n := Z.of_nat (nat_of_ascii c) in
  ((9 <=? n) && (n <=? 13)) || ((28 <=? n) && (n <=? 32))
  || (n =? 133) || (n =? 160).

Fixpoint lstrip (s : string) : string :=
  match s with
  | EmptyString => EmptyString
  | String c r => if is_space c then lstrip r else s
  end.

Fixpoint rstrip (s : string) : string :=
  match s with
  | EmptyString => EmptyString
  | String c r =>
      match rstrip r with
      | EmptyString => if is_space c then EmptyString else String c EmptyString
      | r' => String c r'
      end
  end.

(** [str.strip()] *)
Definition strip (s : string) : string := rstrip (lstrip s).

(** [DANGEROUS_CHARS_PATTERN = re.compile(r'[<>&;]')] and its [search]. *)
Definition dangerous_char (c : ascii) : bool :=
  let n := nat_of_ascii c in
  (Nat.eqb n 60 || Nat.eqb n 62 || Nat.eqb n 38 || Nat.eqb n 59)%nat.

Fixpoint dangerous_search (s : string) : bool :=
  match s with
  | EmptyString => false
  | String c r => dangerous_char c || dangerous_search r
  end.

Definition len (s : string) : Z := Z.of_nat (String.length s).

(** [validate_content_length]; [None] is Python's [None]. *)
Definition validate_content_length (content : option string) : bool :=
  match content with
  | None => false
  | Some content =>
      let content := strip content in
      let content_length := len content in
      if (content_length <? MIN_CONTENT_LENGTH) || (content_length >? MAX_CONTENT_LENGTH)
      then false
      else if dangerous_search content then false
      else true
  end.

(** [validate_order_index] on its [Optional[int]] inputs (the callers in
    the models pass the integer column value or [None]). *)
Definition validate_order_index (order_index : option Z) : bool :=
  match order_index with
  | None => false
  | Some order_index =>
      if (order_index <? 0) || (order_index >? 1000000) then false else true
  end.

(** [validate_items_count] on its [Optional[int]] inputs. *)
Definition validate_items_count (current_count : option Z) : bool :=
  match current_count with
  | None => false
  | Some current_count =>
      if (current_count <? 0) || (current_count >=? MAX_ITEMS_PER_SPECIFICATION)
      then false else true
  end.

(** [GOOGLE_ID_PATTERN = re.compile(r'^[0-9]{21}$')] *)
Definition is_digit (c : ascii) : bool :=
  let n := nat_of_ascii c in (Nat.leb 48 n && Nat.leb n 57)%bool.

(** [re.match] of [[0-9]{n}$] at the start of [s]: [n] digits, then the end
    of the string; [$] also matches just before a final newline. *)
Fixpoint match_digits_to_end (n : nat) (s : string) : bool :=
  match n with
  | O =>
      match s with
      | EmptyString => true
      | String c EmptyString => Ascii.eqb c "010"%char
      | String _ (String _ _) => false
      end
  | S n' =>
      match s with
      | EmptyString => false
      | String c r => is_digit c && match_digits_to_end n' r
      end
  end.

(** [validate_google_id]; [not google_id] holds for [None] and for the empty
    string. *)
Definition validate_google_id (google_id : option string) : bool :=
  match google_id with
  | None => false
  | Some google_id =>
      if String.eqb google_id "" then false
      else
        let google_id := strip google_id in
        if negb (len google_id =? 21) then false
        else if negb (match_digits_to_end 21 google_id) then false
        else if dangerous_search google_id then false
        else true
  end.

(** Every character is one of 0..9. *)
Fixpoint all_digits (s : string) : bool :=
  match s with
  | EmptyString => true
  | String c r => is_digit c && all_digits r
  end.

End Validators.

(** ** Generic list helpers standing for the SQL the ORM issues *)

(** [ORDER BY key]: a stable insertion sort, so rows with equal keys come out
    in table order (SQL leaves their order open; this is one admissible
    answer). *)
Fixpoint insert_by {A : Type} (key : A -> Z) (x : A) (l : list A) : list A :=
  match l with
  | [] => [x]
  | y :: r => if key x <=? key y then x :: l else y :: insert_by key x r
  end.

Definition order_by {A : Type} (key : A -> Z) (l : list A) : list A :=
  fold_right (insert_by key) [] l.

(** Ascending order on a key. *)
Definition key_le {A : Type} (key : A -> Z) (a b : A) : Prop := key a <= key b.

(** [query.filter(p).update(f)]: one UPDATE statement over the table. *)
Definition update_where {A : Type} (p : A -> bool) (f : A -> A) (l : list A) : list A :=
  map (fun r => if p r then f r else r) l.

(** [func.max(column)] over the selected rows: [None] (SQL NULL) without rows. *)
Definition sql_max (l : list Z) : option Z :=
  fold_right (fun x acc => match acc with
                           | None => Some x
                           | Some m => Some (Z.max x m)
                           end) None l.

(** Python's [x or d] for an optional integer [x]: [None] and [0] are both
    falsy. *)
Definition py_or (x : option Z) (d : Z) : Z :=
  match x with
  | None => d
  | Some v => if v =? 0 then d else v
  end.

(** Python's [bool] is a subclass of [int]: [True == 1], [False == 0]. *)
Definition int_of_bool (b : bool) : Z := if b then 1 else 0.

Definition zlength {A : Type} (l : list A) : Z := Z.of_nat (List.length l).

Definition mem (x : Z) (l : list Z) : bool := existsb (Z.eqb x) l.

(** The indices [0, 1, ..., n-1]. *)
Definition zrange (n : nat) : list Z := map Z.of_nat (seq 0 n).

(** ** SQLAlchemy on PostgreSQL, as the repositories meet it

    Not code of this repository: what the ORM and the database server do
    with the queries the repositories issue. *)

Module Orm.

(** The [lazy=] argument of a [relationship]. *)
Inductive loading : Type :=
| lazy_select
| lazy_joined
| lazy_dynamic.

Definition is_joined (r : loading) : bool :=
  match r with
  | lazy_joined => true
  | _ => false
  end.

(** [query(Model).filter(p).with_for_update().first()] for a model with the
    given relationships.  Every [lazy="joined"] relationship puts a LEFT
    OUTER JOIN into the SELECT, and PostgreSQL does not apply FOR UPDATE to
    the nullable side of an outer join: the statement is refused and reaches
    the caller as [NotSupportedError].  Without such a relationship the
    query gives the first row that passes the filter. *)
Definition first_for_update {A : Type} (relationships : list loading)
    (p : A -> bool) (rows : list A) : result (option A) :=
  if existsb is_joined relationships then Raise NotSupportedError
  else Ok (find p rows).

(** [query.options(joinedload(relationship)) ... .all()] on the selected
    rows.  A [lazy='dynamic'] relationship cannot be loaded eagerly: the
    query raises [InvalidRequestError] when it is compiled, whatever the
    rows are. *)
Definition joinedload_all {A : Type} (relationship : loading) (rows : list A)
  : result (list A) :=
  match relationship with
  | lazy_dynamic => Raise InvalidRequestError
  | _ => Ok rows
  end.

(** The attribute event behind [@validates]: on assignment the ORM calls the
    decorated method as [validator(instance, key, value)].  A method declared
    with other than these three parameters fails that call with
    [TypeError]. *)
Definition validates {A : Type} (declared_parameters : nat)
    (validator : A -> result A) (value : A) : result A :=
  if Nat.eqb declared_parameters 3 then validator value else Raise TypeError.

(** The values an [Integer] column (PostgreSQL INTEGER) holds; writing another
    one is refused as out of range ([DataError]). *)
Definition fits_integer (n : Z) : bool :=
  (-2147483648 <=? n) && (n <=? 2147483647).

End Orm.

(** ** redis-py, as the specifications repository meets it

    Not code of this repository: what the client does with the commands the
    repository sends. *)

Module Redis.

(** What a caller hands to a command as the value: bytes (or a string), or
    some other Python object, here a list of the given length. *)
Inductive value : Type :=
| Bytes (data : string)
| PyList (length : nat).

(** [client.setex(key, ttl, value)].  The client encodes bytes, strings and
    numbers only; for a list it raises [redis.exceptions.DataError], a
    [RedisError], before anything is sent, and the store is not touched. *)
Definition setex (store : list (Z * string)) (key : Z) (v : value)
  : result (list (Z * string)) :=
  match v with
  | Bytes data => Ok ((key, data) :: filter (fun e => negb (fst e =? key)) store)
  | PyList _ => Raise RedisError
  end.

End Redis.

(** ** db/models *)

Module Project.
Record Project : Type := mk {
  project_id : Z;
  title : string;
  owner_id : string
}.

(** [specifications = relationship('Specification', ..., lazy='dynamic', ...)] *)
Definition specifications_loading : Orm.loading := Orm.lazy_dynamic.

(** [@validates('title') def validate_title(self, title)]: two declared
    parameters. *)
Definition validate_title_parameters : nat := 2.
End Project.

Module Specification.
Record Specification : Type := mk {
  spec_id : Z;
  project_id : Z;
  content : string;
  order_index : Z
}.

(** The relationships of the model: [project] ([lazy="joined"]) and [items]
    ([lazy="select"]). *)
Definition relationships : list Orm.loading := [Orm.lazy_joined; Orm.lazy_select].

Definition set_order_index (sp : Specification) (i : Z) : Specification :=
  mk (spec_id sp) (project_id sp) (content sp) i.

(** [Specification._validate_order_index] *)
Definition _validate_order_index (order_index : Z) : result Z :=
  if negb (Validators.validate_order_index (Some order_index))
  then Raise (ValueError "Order index must be between 0 and 1000")
  else Ok order_index.

(** [Specification.reorder] *)
Definition reorder (sp : Specification) (new_order_index : Z) : result Specification :=
  i <- _validate_order_index new_order_index ;;
  Ok (set_order_index sp i).
End Specification.

Module Item.
Record Item : Type := mk {
  item_id : Z;
  spec_id : Z;
  content : string;
  order_index : Z
}.

(** The relationship of the model: [specification] ([lazy="joined"]). *)
Definition relationships : list Orm.loading := [Orm.lazy_joined].

Definition set_order_index (it : Item) (i : Z) : Item :=
  mk (item_id it) (spec_id it) (content it) i.

Definition set_item_id (it : Item) (i : Z) : Item :=
  mk i (spec_id it) (content it) (order_index it).

(** [Item.validate_content]: [not content] holds for the empty string. *)
Definition validate_content (content : string) : result string :=
  if (String.eqb content "") || negb (Validators.validate_content_length (Some content))
  then Raise (ValueError "Content must be between 1 and 1000 characters")
  else Ok (Validators.strip content).

(** [Item.validate_order] *)
Definition validate_order (order_index : option Z) : result Z :=
  match order_index with
  | Some i =>
      if negb (Validators.validate_order_index (Some i))
      then Raise (ValueError ERROR_MESSAGES.INVALID_ORDER_INDEX)
      else Ok i
  | None => Raise (ValueError ERROR_MESSAGES.INVALID_ORDER_INDEX)
  end.

(** [Item.__init__]: the attribute assignments run the validators in this
    order.  The primary key is assigned by the database at flush; until then
    it reads 0 here and nothing looks at it. *)
Definition init (spec_id : Z) (content : string) (order_index : Z) : result Item :=
  c <- validate_content content ;;
  i <- validate_order (Some order_index) ;;
  Ok (mk 0 spec_id c i).
End Item.

(** ** The database *)

Record Database : Type := mkDatabase {
  users : list string;
  projects : list Project.Project;
  specifications : list Specification.Specification;
  items : list Item.Item;
  items_seq : Z;
  projects_seq : Z
}.

Definition set_items (db : Database) (l : list Item.Item) : Database :=
  mkDatabase (users db) (projects db) (specifications db) l (items_seq db) (projects_seq db).

Definition set_specifications (db : Database) (l : list Specification.Specification) : Database :=
  mkDatabase (users db) (projects db) l (items db) (items_seq db) (projects_seq db).

Definition items_of (db : Database) (spec_id : Z) : list Item.Item :=
  filter (fun it => Item.spec_id it =? spec_id) (items db).

Definition specification_exists (db : Database) (spec_id : Z) : bool :=
  existsb (fun sp => Specification.spec_id sp =? spec_id) (specifications db).

(** [validate_item_count], the [before_insert] listener of [Item]. *)
Definition validate_item_count (db : Database) (target : Item.Item) : result bool :=
  let current_count := zlength (items_of db (Item.spec_id target)) in
  if current_count >=? DATABASE_CONSTANTS.MAX_ITEMS_PER_SPECIFICATION
  then Raise (ValueError ERROR_MESSAGES.MAX_ITEMS_REACHED)
  else Ok true.

(** ** db/repositories/base.py *)

Module BaseRepository.

(** [BaseRepository.create] for the [Item] model: build the instance (which
    validates it), [add], [flush] and, through [@transactional], commit.  The
    flush runs the [before_insert] listener, then the INSERT, where the
    database checks the foreign key on [spec_id] and draws the primary key
    from the table's sequence. *)
Definition create_item_row (db : Database) (spec_id : Z) (content : string)
    (order_index : Z) : result (Item.Item * Database) :=
  instance <- Item.init spec_id content order_index ;;
  _ <- validate_item_count db instance ;;
  if negb (specification_exists db spec_id)
  then Raise (IntegrityError "items_spec_id_fkey")
  else
    let instance := Item.set_item_id instance (items_seq db) in
    Ok (instance,
        mkDatabase (users db) (projects db) (specifications db)
                   (items db ++ [instance]) (items_seq db + 1) (projects_seq db)).

(** Modelled from the spec: [BaseRepository.delete], which
    [ItemRepository.delete_item] calls through [super().delete(item_id)]; the
    base class under src/ defines no such method.  The spec's [delete_child]
    "deletes the row": the row with this primary key leaves the table. *)
Definition delete_item_row (db : Database) (item_id : Z) : Database :=
  set_items db (filter (fun it => negb (Item.item_id it =? item_id)) (items db)).

End BaseRepository.

(** ** db/repositories/items.py *)

Module ItemRepository.

(** The [item_data] dictionary of [create_item]; [order_index = None] stands
    for a dictionary without the key ['order_index']. *)
Record ItemData : Type := mkItemData {
  spec_id : Z;
  content : string;
  order_index : option Z
}.

(** One entry of [order_updates]: [{'item_id': .., 'order_index': ..}]. *)
Record OrderUpdate : Type := mkOrderUpdate {
  upd_item_id : Z;
  upd_order_index : Z
}.

(** [get_by_specification] *)
Definition get_by_specification (db : Database) (spec_id : Z) : result (list Item.Item) :=
  Ok (order_by Item.order_index (items_of db spec_id)).

(** The index [create_item] stores: the one given, else the one it computes
    from the largest index in use ([... .scalar() or -1], then [+ 1]). *)
Definition chosen_order_index (db : Database) (item_data : ItemData) : Z :=
  match order_index item_data with
  | Some i => i
  | None =>
      let max_order :=
        py_or (sql_max (map Item.order_index (items_of db (spec_id item_data)))) (-1) in
      max_order + 1
  end.

(** [create_item].  The limit check raises before anything is written, so a
    failed call leaves the database as it was. *)
Definition create_item (db : Database) (item_data : ItemData)
  : result (Item.Item * Database) :=
  let current_count := zlength (items_of db (spec_id item_data)) in
  if current_count >=? DATABASE_CONSTANTS.MAX_ITEMS_PER_SPECIFICATION
  then Raise (ValueError ERROR_MESSAGES.MAX_ITEMS_REACHED)
  else
    BaseRepository.create_item_row db (spec_id item_data) (content item_data)
                                   (chosen_order_index db item_data).

(** The loop of [update_order]: one UPDATE per entry, in the order given,
    each on the row with that primary key. *)
Definition apply_update (rows : list Item.Item) (u : OrderUpdate) : list Item.Item :=
  update_where (fun it => Item.item_id it =? upd_item_id u)
               (fun it => Item.set_order_index it (upd_order_index u)) rows.

Definition apply_updates (rows : list Item.Item) (order_updates : list OrderUpdate)
  : list Item.Item :=
  fold_left apply_update order_updates rows.

(** The same loop as the server runs it: [order_index] is an [Integer]
    column, so an UPDATE that sets a value outside it is refused and the
    loop ends there with [DataError]. *)
Definition write_update (rows : list Item.Item) (u : OrderUpdate)
  : result (list Item.Item) :=
  if Orm.fits_integer (upd_order_index u) then Ok (apply_update rows u)
  else Raise DataError.

Fixpoint write_updates (rows : list Item.Item) (order_updates : list OrderUpdate)
  : result (list Item.Item) :=
  match order_updates with
  | [] => Ok rows
  | u :: rest => rows' <- write_update rows u ;; write_updates rows' rest
  end.

(** [update_order].  An exception leaves the method before the commit, and
    the transaction is rolled back: a failed call returns no new database. *)
Definition update_order (db : Database) (spec_id : Z) (order_updates : list OrderUpdate)
  : result (list Item.Item * Database) :=
  let item_ids := map upd_item_id order_updates in
  let found :=
    filter (fun it => (Item.spec_id it =? spec_id) && mem (Item.item_id it) item_ids)
           (items db) in
  if negb (Nat.eqb (List.length found) (List.length order_updates))
  then Raise (ValueError "Invalid item IDs in order update request")
  else
    rows <- write_updates (items db) order_updates ;;
    let db' := set_items db rows in
    updated_items <- get_by_specification db' spec_id ;;
    Ok (updated_items, db').

(** The statements of [delete_item] that follow the locking query and the
    not-found check: delete the row, close the gap, commit, [return True]. *)
Definition delete_found (db : Database) (item_id : Z) (item : Item.Item)
  : result (bool * Database) :=
  let spec_id := Item.spec_id item in
  let deleted_order := Item.order_index item in
  let db1 := BaseRepository.delete_item_row db item_id in
  let db2 :=
    set_items db1
      (update_where
         (fun it => (Item.spec_id it =? spec_id) && (Item.order_index it >? deleted_order))
         (fun it => Item.set_order_index it (Item.order_index it - 1))
         (items db1)) in
  Ok (true, db2).

(** [delete_item].  Its first statement is
    [query(Item).filter(Item.item_id == item_id).with_for_update().first()],
    and [Item] has the relationship [specification] with [lazy="joined"]. *)
Definition delete_item (db : Database) (item_id : Z) : result (bool * Database) :=
  item <- Orm.first_for_update Item.relationships
            (fun it => Item.item_id it =? item_id) (items db) ;;
  match item with
  | None => Raise (ValueError "Item not found")
  | Some item => delete_found db item_id item
  end.

End ItemRepository.

(** ** db/repositories/specifications.py *)

Module SpecificationRepository.

(** The filter of the locking query of [update_order] and
    [delete_specification]: the specification with this id, joined with its
    project, kept when the project belongs to [owner_id]. *)
Definition owned_specification (db : Database) (spec_id : Z) (owner_id : string)
    (sp : Specification.Specification) : bool :=
  (Specification.spec_id sp =? spec_id)
  && existsb (fun p => (Project.project_id p =? Specification.project_id sp)
                       && String.eqb (Project.owner_id p) owner_id)
             (projects db).

(** The Redis store behind [self._cache_client], keyed by the project id that
    the cache key ["spec_mgmt_spec:project:<project_id>"] carries.  A Redis
    value is a byte string; an entry that expired is an entry that is not
    there. *)
Definition Cache : Type := list (Z * string).

(** [_get_from_cache]: [self._cache_client.get(cache_key)], the bytes stored
    under the key or [None]. *)
Definition _get_from_cache (cache : Cache) (project_id : Z) : option string :=
  option_map snd (find (fun e => fst e =? project_id) cache).

(** [_invalidate_project_cache]: [self._cache_client.delete(cache_key)]. *)
Definition _invalidate_project_cache (cache : Cache) (project_id : Z) : Cache :=
  filter (fun e => negb (fst e =? project_id)) cache.

(** [_cache_results]: [self._cache_client.setex(cache_key, ttl, data)] with
    [data] the list of [Specification] objects, inside
    [try ... except RedisError].  Every outcome of [Redis.setex] on a list is
    a [RedisError], which the method logs and swallows: the store stays as it
    was. *)
Definition _cache_results (cache : Cache) (project_id : Z)
    (data : list Specification.Specification) : Cache :=
  match Redis.setex cache project_id (Redis.PyList (List.length data)) with
  | Ok stored => stored
  | Raise _ => cache
  end.

Definition owns_project (db : Database) (project_id : Z) (owner_id : string) : bool :=
  existsb (fun p => (Project.project_id p =? project_id)
                    && String.eqb (Project.owner_id p) owner_id)
          (projects db).

Definition specifications_of (db : Database) (project_id : Z)
  : list Specification.Specification :=
  filter (fun sp => Specification.project_id sp =? project_id) (specifications db).

(** What [get_by_project] hands back: the rows it read, or whatever the
    cache held under the key (the annotation says a list of specifications;
    the client returns the stored bytes). *)
Inductive listing : Type :=
| Rows (specifications : list Specification.Specification)
| Cached (data : string).

(** [get_by_project].  [if cached_data:] takes what the cache holds unless it
    is empty; the ownership query comes after the cache.  The queries on
    [Project] and [Specification] carry no FOR UPDATE, and [joinedload] is
    applied to [Specification.items], which is [lazy="select"]: both go
    through. *)
Definition get_by_project (db : Database) (cache : Cache) (project_id : Z)
    (owner_id : string) (use_cache : bool) : result listing * Cache :=
  let cached_data :=
    if use_cache then
      match _get_from_cache cache project_id with
      | Some data => if String.eqb data "" then None else Some data
      | None => None
      end
    else None in
  match cached_data with
  | Some data => (Ok (Cached data), cache)
  | None =>
      if negb (owns_project db project_id owner_id)
      then (Raise (PermissionError ERROR_MESSAGES.PROJECT_ACCESS_DENIED), cache)
      else
        let specifications :=
          order_by Specification.order_index (specifications_of db project_id) in
        (Ok (Rows specifications),
         if use_cache then _cache_results cache project_id specifications else cache)
  end.

(** [update_order].  Its first statement is the locking query
    [query(Specification).join(Project).filter(...).with_for_update().first()],
    and [Specification] has the relationship [project] with [lazy="joined"].
    After it: [spec.reorder] changes the loaded row; the session flushes
    that change before it runs the bulk UPDATE on the siblings, which is why
    the UPDATE excludes the moved row by its id; then the project's cache
    entry is dropped.  An exception rolls the transaction back and leaves the
    cache alone. *)
Definition update_order (db : Database) (cache : Cache) (spec_id : Z)
    (new_order_index : Z) (owner_id : string) : result (bool * Database) * Cache :=
  match Orm.first_for_update Specification.relationships
          (owned_specification db spec_id owner_id) (specifications db) with
  | Raise e => (Raise e, cache)
  | Ok None => (Raise (PermissionError ERROR_MESSAGES.UNAUTHORIZED_ACCESS), cache)
  | Ok (Some spec) =>
      let old_order := Specification.order_index spec in
      match Specification.reorder spec new_order_index with
      | Raise e => (Raise e, cache)
      | Ok spec' =>
          let flushed :=
            update_where (fun sp => Specification.spec_id sp =? spec_id)
                         (fun sp => Specification.set_order_index sp
                                      (Specification.order_index spec'))
                         (specifications db) in
          let reordered :=
            if new_order_index >? old_order then
              update_where
                (fun sp => (Specification.project_id sp =? Specification.project_id spec)
                           && (Specification.order_index sp <=? new_order_index)
                           && (Specification.order_index sp >? old_order)
                           && negb (Specification.spec_id sp =? spec_id))
                (fun sp => Specification.set_order_index sp (Specification.order_index sp - 1))
                flushed
            else
              update_where
                (fun sp => (Specification.project_id sp =? Specification.project_id spec)
                           && (Specification.order_index sp >=? new_order_index)
                           && (Specification.order_index sp <? old_order)
                           && negb (Specification.spec_id sp =? spec_id))
                (fun sp => Specification.set_order_index sp (Specification.order_index sp + 1))
                flushed in
          (Ok (true, set_specifications db reordered),
           _invalidate_project_cache cache (Specification.project_id spec))
      end
  end.

(** [delete_specification], which opens with the same locking query.  After
    it: [self._db.delete(spec)] removes the row and, through the cascade of
    [Specification.items], the items that belong to it; the bulk UPDATE then
    closes the gap among the siblings, and the project's cache entry is
    dropped. *)
Definition delete_specification (db : Database) (cache : Cache) (spec_id : Z)
    (owner_id : string) : result (bool * Database) * Cache :=
  match Orm.first_for_update Specification.relationships
          (owned_specification db spec_id owner_id) (specifications db) with
  | Raise e => (Raise e, cache)
  | Ok None => (Raise (PermissionError ERROR_MESSAGES.UNAUTHORIZED_ACCESS), cache)
  | Ok (Some spec) =>
      let project_id := Specification.project_id spec in
      let order_index := Specification.order_index spec in
      let remaining :=
        filter (fun sp => negb (Specification.spec_id sp =? spec_id)) (specifications db) in
      let remaining_items :=
        filter (fun it => negb (Item.spec_id it =? spec_id)) (items db) in
      let reordered :=
        update_where
          (fun sp => (Specification.project_id sp =? project_id)
                     && (Specification.order_index sp >? order_index))
          (fun sp => Specification.set_order_index sp (Specification.order_index sp - 1))
          remaining in
      (Ok (true,
           mkDatabase (users db) (projects db) reordered remaining_items
                      (items_seq db) (projects_seq db)),
       _invalidate_project_cache cache project_id)
  end.

End SpecificationRepository.

(** ** db/repositories/projects.py *)

Module ProjectRepository.

(** The store behind [@cache.memoize]: the value remembered for
    [get_by_owner(owner_id)], when there is one. *)
Definition Memo : Type := list (string * list Project.Project).

Definition memo_get (memo : Memo) (owner_id : string) : option (list Project.Project) :=
  option_map snd (find (fun e => String.eqb (fst e) owner_id) memo).

(** [cache.delete_memoized(self.get_by_owner, owner_id)] *)
Definition delete_memoized (memo : Memo) (owner_id : string) : Memo :=
  filter (fun e => negb (String.eqb (fst e) owner_id)) memo.

Definition projects_of (db : Database) (owner_id : string) : list Project.Project :=
  filter (fun p => String.eqb (Project.owner_id p) owner_id) (projects db).

Section WithMissingParts.

(** [utils.validators.sanitize_string], which [models/projects.py] imports and
    the validators module under src/ does not define: a parameter. *)
Variable sanitize_string : string -> string.

(** [ORDER BY updated_at DESC]: the rows here carry no timestamps, so the
    ordering of the owner's rows is a parameter. *)
Variable by_updated_at_desc : list Project.Project -> list Project.Project.

(** The body of [get_by_owner]: the query
    [query(Project).options(joinedload(Project.specifications))
     .filter(Project.owner_id == owner_id).order_by(Project.updated_at.desc())],
    then [query.all()].  [Project.specifications] is [lazy='dynamic']. *)
Definition get_by_owner_query (db : Database) (owner_id : string)
  : result (list Project.Project) :=
  rows <- Orm.joinedload_all Project.specifications_loading (projects_of db owner_id) ;;
  Ok (by_updated_at_desc rows).

(** [get_by_owner] under [@cache.memoize]: the remembered list on a hit;
    else the body runs, and what it returns is remembered.  A call that
    raises leaves nothing behind. *)
Definition get_by_owner (db : Database) (memo : Memo) (owner_id : string)
  : result (list Project.Project) * Memo :=
  match memo_get memo owner_id with
  | Some l => (Ok l, memo)
  | None =>
      match get_by_owner_query db owner_id with
      | Ok l => (Ok l, (owner_id, l) :: memo)
      | Raise e => (Raise e, memo)
      end
  end.

(** [Project.validate_title] *)
Definition validate_title (title : string) : result string :=
  if String.eqb title "" then Raise (ValueError "Project title is required")
  else
    let sanitized_title := sanitize_string title in
    if String.eqb sanitized_title ""
    then Raise (ValueError "Project title cannot be empty after sanitization")
    else if Validators.len sanitized_title >? DATABASE_CONSTANTS.MAX_TITLE_LENGTH
    then Raise (ValueError "Project title cannot exceed 255 characters")
    else Ok sanitized_title.

(** [Project.__init__].  [self.title = self.validate_title(title)] calls the
    method directly and then assigns its result, and the assignment fires
    the [@validates('title')] event on [validate_title(self, title)]. *)
Definition init (title : string) (owner_id : string) : result Project.Project :=
  if String.eqb owner_id "" then Raise (ValueError "owner_id is required")
  else
    t <- validate_title title ;;
    t <- Orm.validates Project.validate_title_parameters validate_title t ;;
    Ok (Project.mk 0 t owner_id).

(** [BaseRepository.create] for the [Project] model; the INSERT checks the
    foreign key from [owner_id] to the users table. *)
Definition create_row (db : Database) (title : string) (owner_id : string)
  : result (Project.Project * Database) :=
  instance <- init title owner_id ;;
  if negb (existsb (String.eqb owner_id) (users db))
  then Raise (IntegrityError "projects_owner_id_fkey")
  else
    let instance := Project.mk (projects_seq db) (Project.title instance)
                               (Project.owner_id instance) in
    Ok (instance,
        mkDatabase (users db) (projects db ++ [instance]) (specifications db)
                   (items db) (items_seq db) (projects_seq db + 1)).

(** [create_project]; [project_data] carries the title.  The memo store
    outlives a failed call, so it is returned beside the result. *)
Definition create_project (db : Database) (memo : Memo) (owner_id : string)
    (title : string) : result (Project.Project * Database) * Memo :=
  match get_by_owner db memo owner_id with
  | (Raise e, memo1) => (Raise e, memo1)
  | (Ok owner_projects, memo1) =>
      if zlength owner_projects >=? DATABASE_CONSTANTS.MAX_SPECIFICATIONS_PER_PROJECT
      then (Raise (ValueError ERROR_MESSAGES.MAX_ITEMS_REACHED), memo1)
      else
        match create_row db title owner_id with
        | Ok r => (Ok r, delete_memoized memo1 owner_id)
        | Raise e => (Raise e, memo1)
        end
  end.

End WithMissingParts.

End ProjectRepository.

(** ** The state of the items table over time *)

(** Primary keys are unique and were drawn from the sequence. *)
Definition well_formed (db : Database) : Prop :=
  NoDup (map Item.item_id (items db))
  /\ (forall it, In it (items db) -> Item.item_id it < items_seq db).

(** The ordering invariant of one specification: the order indexes of its
    items are, up to their order in the table, [0, 1, ..., count-1]. *)
Definition dense (db : Database) (spec_id : Z) : Prop :=
  Permutation (map Item.order_index (items_of db spec_id))
              (zrange (List.length (items_of db spec_id))).

Definition all_dense (db : Database) : Prop := forall spec_id, dense db spec_id.

(** The three mutating operations on items. *)
Inductive operation : Type :=
| Create (item_data : ItemRepository.ItemData)
| Delete (item_id : Z)
| Reorder (spec_id : Z) (order_updates : list ItemRepository.OrderUpdate).

Definition run (db : Database) (o : operation) : result Database :=
  match o with
  | Create d => r <- ItemRepository.create_item db d ;; Ok (snd r)
  | Delete i => r <- ItemRepository.delete_item db i ;; Ok (snd r)
  | Reorder s u => r <- ItemRepository.update_order db s u ;; Ok (snd r)
  end.

(** One committed operation. *)
Definition committed (db db' : Database) : Prop := exists o, run db o = Ok db'.

(** An operation that respects positions in the state it runs in: a create
    puts the new item at the end (explicitly, or by leaving the index out on a
    specification that does not hold exactly one item), a reorder names every
    item of the specification once and hands out the indices
    [0 .. count-1].  Nothing is asked of a delete. *)
Definition positional (db : Database) (o : operation) : Prop :=
  match o with
  | Create d =>
      let n := zlength (items_of db (ItemRepository.spec_id d)) in
      ItemRepository.order_index d = Some n
      \/ (ItemRepository.order_index d = None /\ n <> 1)
  | Delete _ => True
  | Reorder s u =>
      Permutation (map ItemRepository.upd_item_id u)
                  (map Item.item_id (items_of db s))
      /\ Permutation (map ItemRepository.upd_order_index u)
                     (zrange (List.length (items_of db s)))
  end.

Definition positional_step (db db' : Database) : Prop :=
  exists o, positional db o /\ run db o = Ok db'.

(** ** The loop of [update_order], row by row *)

(** The index the loop of [update_order] leaves on the row with primary key
    [i] that held index [d]: that of the last entry naming [i], if any. *)
Definition last_update (order_updates : list ItemRepository.OrderUpdate) (i d : Z) : Z :=
  fold_left (fun acc u => if i =? ItemRepository.upd_item_id u
                          then ItemRepository.upd_order_index u else acc)
            order_updates d.

(** ** Sample databases *)

Definition test_owner : string := "123456789012345678901".

(** One user, one project, specification 7 in it, no items yet. *)
Definition db_empty_spec : Database :=
  mkDatabase [test_owner]
             [Project.mk 1 "Test Project" test_owner]
             [Specification.mk 7 1 "Test Specification" 0]
             [] 1 2.

(** Specification 7 holding a single item, at index 0. *)
Definition db_single_item : Database :=
  mkDatabase [test_owner]
             [Project.mk 1 "Test Project" test_owner]
             [Specification.mk 7 1 "Test Specification" 0]
             [Item.mk 1 7 "first" 0] 2 2.

(** Specification 7 holding three items at indices 0, 1, 2. *)
Definition db_three_items : Database :=
  mkDatabase [test_owner]
             [Project.mk 1 "Test Project" test_owner]
             [Specification.mk 7 1 "Test Specification" 0]
             [Item.mk 1 7 "a" 0; Item.mk 2 7 "b" 1; Item.mk 3 7 "c" 2] 4 2.

(** A database without any specification. *)
Definition db_no_specification : Database :=
  mkDatabase [test_owner] [Project.mk 1 "Test Project" test_owner] [] [] 1 2.

(** Specification 7 holding nine items at indices 0 to 8. *)
Definition db_nine_items : Database :=
  mkDatabase [test_owner]
             [Project.mk 1 "Test Project" test_owner]
             [Specification.mk 7 1 "Test Specification" 0]
             (map (fun i => Item.mk (Z.of_nat i + 1) 7 "item" (Z.of_nat i)) (seq 0 9))
             10 2.

(** Project 1 with five specifications at indices 0 to 4. *)
Definition db_five_specifications : Database :=
  mkDatabase [test_owner]
             [Project.mk 1 "Test Project" test_owner]
             [Specification.mk 1 1 "a" 0; Specification.mk 2 1 "b" 1;
              Specification.mk 3 1 "c" 2; Specification.mk 4 1 "d" 3;
              Specification.mk 5 1 "e" 4]
             [] 1 2.

(** One user who owns a hundred projects. *)
Definition db_hundred_projects : Database :=
  mkDatabase [test_owner]
             (map (fun i => Project.mk (Z.of_nat i) "Project" test_owner) (seq 1 100))
             [] [] 1 101.

(** Specification 7 after a short session: three appends and a reorder that
    swaps the first two. *)
Definition db_after_session : Database :=
  mkDatabase [test_owner]
             [Project.mk 1 "Test Project" test_owner]
             [Specification.mk 7 1 "Test Specification" 0]
             [Item.mk 1 7 "a" 1; Item.mk 2 7 "b" 0; Item.mk 3 7 "c" 2] 4 2.

(** ** utils/helpers.py *)

Module Helpers.

(** [sorted(existing_indices)] *)
Definition sorted (l : list Z) : list Z := order_by (fun x => x) l.

(** [l[i]] for a position [i] inside the list. *)
Definition at_position (l : list Z) (i : Z) : Z := nth (Z.to_nat i) l 0.

(** The block "Calculate spacing" of [calculate_order_index]: the index
    halfway to the neighbour, for a list that is not empty and a position
    that passed the bounds check. *)
Definition spaced_index (sorted_indices : list Z) (target_position : option Z) : Z :=
  let min_idx := DATABASE_CONSTANTS.MIN_ORDER_INDEX in
  let max_idx := DATABASE_CONSTANTS.MAX_ORDER_INDEX in
  match target_position with
  | None =>
      let prev_index := last sorted_indices min_idx in
      prev_index + (max_idx - prev_index) / 2
  | Some t =>
      if t >=? zlength sorted_indices then
        let prev_index := last sorted_indices min_idx in
        prev_index + (max_idx - prev_index) / 2
      else if t =? 0 then
        let next_index := at_position sorted_indices 0 in
        min_idx + (next_index - min_idx) / 2
      else
        let prev_index := at_position sorted_indices (t - 1) in
        let next_index := at_position sorted_indices t in
        prev_index + (next_index - prev_index) / 2
  end.

(** The block "Check for index overflow". *)
Definition overflow_guard (new_index : Z) : Z :=
  let min_idx := DATABASE_CONSTANTS.MIN_ORDER_INDEX in
  let max_idx := DATABASE_CONSTANTS.MAX_ORDER_INDEX in
  if (new_index <=? min_idx) || (new_index >=? max_idx) then
    let new_index := if new_index <=? min_idx then min_idx + 1 else new_index in
    if new_index >=? max_idx then max_idx - 1 else new_index
  else new_index.

(** [calculate_order_index]; [target_position = None] is the default. *)
Definition calculate_order_index (existing_indices : list Z)
    (target_position : option Z) : result Z :=
  let sorted_indices := sorted existing_indices in
  match sorted_indices with
  | [] =>
      Ok ((DATABASE_CONSTANTS.MAX_ORDER_INDEX - DATABASE_CONSTANTS.MIN_ORDER_INDEX) / 2)
  | _ :: _ =>
      let out_of_bounds :=
        match target_position with
        | Some t => (t <? 0) || (t >? zlength sorted_indices)
        | None => false
        end in
      if out_of_bounds then Raise (ValueError "Target position out of bounds")
      else Ok (overflow_guard (spaced_index sorted_indices target_position))
  end.

(** [VALID_RESOURCE_TYPES] of [generate_cache_key]. *)
Definition VALID_RESOURCE_TYPES : list string :=
  ["project"; "specification"; "item"; "user"].

(** [s.replace(':', '_')] *)
Fixpoint replace_colon (s : string) : string :=
  match s with
  | EmptyString => EmptyString
  | String c r =>
      String (if Ascii.eqb c ":"%char then "_"%char else c) (replace_colon r)
  end.

(** [generate_cache_key]; the prefix is [CACHE_CONSTANTS['CACHE_KEY_PREFIX']]. *)
Definition generate_cache_key (resource_type resource_id : string) : result string :=
  if negb (existsb (String.eqb resource_type) VALID_RESOURCE_TYPES)
  then Raise (ValueError
    "Invalid resource type. Must be one of: ['project', 'specification', 'item', 'user']")
  else
    let safe_resource_id := replace_colon resource_id in
    Ok ("spec_mgmt" ++ ":" ++ resource_type ++ ":" ++ safe_resource_id)%string.

(** The number of colons in a string. *)
Fixpoint count_colons (s : string) : nat :=
  match s with
  | EmptyString => O
  | String c r => ((if Ascii.eqb c ":"%char then 1 else 0) + count_colons r)%nat
  end.

End Helpers.

(** ** The state of the specifications table *)

(** The ordering invariant of one project: the order indexes of its
    specifications are, up to their order in the table, [0 .. count-1]. *)
Definition project_dense (db : Database) (project_id : Z) : Prop :=
  Permutation
    (map Specification.order_index
         (SpecificationRepository.specifications_of db project_id))
    (zrange (List.length (SpecificationRepository.specifications_of db project_id))).

(** Every item points to a specification that exists. *)
Definition items_have_parents (db : Database) : Prop :=
  forall it, In it (items db) -> specification_exists db (Item.spec_id it) = true.

(** ** services/items.py *)

Module ItemService.

(** [ItemCreate], as the service reads it: the schema requires all three
    fields, so [order_index] is always there. *)
Record ItemCreate : Type := mkItemCreate {
  spec_id : Z;
  content : string;
  order_index : Z
}.

(** The response dictionary built for an item, without [created_at]: the
    tables here carry no timestamps. *)
Record ItemResponse : Type := mkItemResponse {
  resp_item_id : Z;
  resp_content : string;
  resp_order_index : Z
}.

Definition response_of (item : Item.Item) : ItemResponse :=
  mkItemResponse (Item.item_id item) (Item.content item) (Item.order_index item).

(** [get_items_by_specification] *)
Definition get_items_by_specification (db : Database) (spec_id : Z)
  : result (list ItemResponse) :=
  if spec_id <=? 0 then Raise (ValueError "Invalid specification ID")
  else
    found <- ItemRepository.get_by_specification db spec_id ;;
    Ok (map response_of found).

(** [create_item]: the dictionary handed to the repository always holds the
    key ['order_index']. *)
Definition create_item (db : Database) (item_data : ItemCreate)
  : result (ItemResponse * Database) :=
  current_items <- ItemRepository.get_by_specification db (spec_id item_data) ;;
  if zlength current_items >=? DATABASE_CONSTANTS.MAX_ITEMS_PER_SPECIFICATION
  then Raise (ValueError ERROR_MESSAGES.MAX_ITEMS_REACHED)
  else
    let item_dict :=
      ItemRepository.mkItemData (spec_id item_data) (content item_data)
                                (Some (order_index item_data)) in
    r <- ItemRepository.create_item db item_dict ;;
    Ok (response_of (fst r), snd r).

(** [delete_item] *)
Definition delete_item (db : Database) (item_id : Z) : result (bool * Database) :=
  ItemRepository.delete_item db item_id.

(** [reorder_items]; the format checks on [order_updates] hold for every
    list of [OrderUpdate] entries. *)
Definition reorder_items (db : Database) (spec_id : Z)
    (order_updates : list ItemRepository.OrderUpdate)
  : result (list ItemResponse * Database) :=
  r <- ItemRepository.update_order db spec_id order_updates ;;
  Ok (map response_of (fst r), snd r).

End ItemService.

(** * Properties *)

(** ** Results *)

Lemma bind_Ok_inv {A B : Type} (r : result A) (k : A -> result B) (b : B) :
  bind r k = Ok b -> exists a, r = Ok a /\ k a = Ok b.
Proof.
  destruct r as [a | e]; simpl; intros H.
  - exists a; split; [reflexivity | exact H].
  - discriminate H.
Qed.

(** ** Validators *)

Lemma validate_order_index_spec (n : Z) :
  Validators.validate_order_index (Some n) = (0 <=? n) && (n <=? 1000000).
Proof.
  unfold Validators.validate_order_index.
  destruct (n <? 0) eqn:Hlo, (n >? 1000000) eqn:Hhi; simpl;
    destruct (0 <=? n) eqn:H0, (n <=? 1000000) eqn:H1; simpl; try reflexivity; lia.
Qed.

Lemma validate_items_count_spec (n : Z) :
  Validators.validate_items_count (Some n) = true <-> 0 <= n < 10.
Proof.
  unfold Validators.validate_items_count, Validators.MAX_ITEMS_PER_SPECIFICATION.
  destruct (n <? 0) eqn:Hlo, (n >=? 10) eqn:Hhi; simpl; split; intros H;
    try discriminate; try reflexivity; lia.
Qed.

(** C9.  For every integer [n], [validate_order_index n] is [True] exactly
    when [0 <= n <= 1000000]; the declared [MAX_ORDER_INDEX] is 1000 and the
    [INVALID_ORDER_INDEX] message speaks of 1000, yet every index in
    (1000, 1000000] passes the validation of the Item and Specification
    models. *)
Theorem validate_order_index_accepts_up_to_a_million :
  (forall n : Z, Validators.validate_order_index (Some n) = true <-> 0 <= n <= 1000000)
  /\ DATABASE_CONSTANTS.MAX_ORDER_INDEX = 1000
  /\ ERROR_MESSAGES.INVALID_ORDER_INDEX = "Order index must be between 0 and 1000"
  /\ (forall n : Z, 1000 < n <= 1000000 ->
        Item.validate_order (Some n) = Ok n
        /\ Specification._validate_order_index n = Ok n).
Proof.
  split; [| split; [reflexivity | split; [reflexivity |]]].
  - intros n. rewrite validate_order_index_spec, andb_true_iff. lia.
  - intros n Hn.
    unfold Item.validate_order, Specification._validate_order_index.
    rewrite validate_order_index_spec.
    replace (0 <=? n) with true by lia. replace (n <=? 1000000) with true by lia.
    split; reflexivity.
Qed.

Lemma validate_order_index_accepts_up_to_a_million_witness :
  Validators.validate_order_index (Some 5000) = true
  /\ Item.validate_order (Some 5000) = Ok 5000.
Proof.
  destruct validate_order_index_accepts_up_to_a_million as [Hiff [_ [_ Hmodel]]].
  split.
  - apply (proj2 (Hiff 5000)). lia.
  - apply (Hmodel 5000). lia.
Defined.

(** ** Appending an item *)

Lemma py_or_nonzero (v d : Z) : v <> 0 -> py_or (Some v) d = v.
Proof.
  intros Hv. unfold py_or. destruct (v =? 0) eqn:E; [lia | reflexivity].
Qed.

(** C2.  On a specification whose only item sits at index 0, [create_item]
    without an [order_index] stores the new item at index 0 as well: the
    largest index in use, 0, is falsy, so [max_order] becomes -1.  The
    maximum plus one would have been 1. *)
Theorem create_item_append_after_index_zero :
  ItemRepository.chosen_order_index db_single_item
    (ItemRepository.mkItemData 7 "second" None) = 0
  /\ sql_max (map Item.order_index (items_of db_single_item 7)) = Some 0
  /\ exists db',
       ItemRepository.create_item db_single_item
         (ItemRepository.mkItemData 7 "second" None)
       = Ok (Item.mk 2 7 "second" 0, db')
       /\ map Item.order_index (items_of db' 7) = [0; 0].
Proof.
  split; [reflexivity | split; [reflexivity |]].
  eexists. split; reflexivity.
Qed.

(** Where the largest index in use is not 0, the computed index is the
    maximum plus one, and on a specification without items it is 0. *)
Lemma chosen_order_index_append (db : Database) (s : Z) (c : string) :
  match sql_max (map Item.order_index (items_of db s)) with
  | None => ItemRepository.chosen_order_index db (ItemRepository.mkItemData s c None) = 0
  | Some m =>
      m <> 0 ->
      ItemRepository.chosen_order_index db (ItemRepository.mkItemData s c None) = m + 1
  end.
Proof.
  unfold ItemRepository.chosen_order_index; simpl.
  destruct (sql_max _) as [m |]; [| reflexivity].
  intros Hm. rewrite (py_or_nonzero m (-1) Hm). reflexivity.
Qed.

(** ** Deleting an item *)

(** C5, at the failing input.  Specification 7 holds the items 1, 2, 3 at
    the indices 0, 1, 2 and item 2 is deleted.  The locking query that opens
    [delete_item] is refused by the server, and so it is for every table and
    every id: the call raises [NotSupportedError] and returns no new
    database; no row goes and no index moves. *)
Theorem delete_item_raises_at_locking_query :
  ItemRepository.delete_item db_three_items 2 = Raise NotSupportedError
  /\ (forall db item_id,
        ItemRepository.delete_item db item_id = Raise NotSupportedError).
Proof.
  split; [reflexivity |]. intros db item_id. reflexivity.
Qed.

(** C7, at the failing inputs.  For the existing item 2 of specification 7
    [delete_item] does not return 7, and for the id 99, which names no item,
    it does not raise the not-found [ValueError]: both calls raise
    [NotSupportedError] at the locking query.  The statements after the
    query end in [return True]: run on a found item they give the Boolean,
    not the item's [spec_id]. *)
Theorem delete_item_never_returns_parent_id :
  ItemRepository.delete_item db_three_items 2 = Raise NotSupportedError
  /\ ItemRepository.delete_item db_three_items 99 = Raise NotSupportedError
  /\ (forall db item_id item,
        exists db', ItemRepository.delete_found db item_id item = Ok (true, db')).
Proof.
  split; [reflexivity |]. split; [reflexivity |].
  intros db item_id item. eexists. reflexivity.
Qed.

(** ** Listing the items of a specification *)

Lemma insert_by_perm {A : Type} (key : A -> Z) (x : A) (l : list A) :
  Permutation (insert_by key x l) (x :: l).
Proof.
  induction l as [| y l IH]; simpl; [apply Permutation_refl |].
  destruct (key x <=? key y); [apply Permutation_refl |].
  apply perm_trans with (y :: x :: l); [apply perm_skip, IH | apply perm_swap].
Qed.

Lemma order_by_perm {A : Type} (key : A -> Z) (l : list A) :
  Permutation (order_by key l) l.
Proof.
  induction l as [| x l IH]; simpl; [apply perm_nil |].
  apply perm_trans with (x :: order_by key l);
    [apply insert_by_perm | apply perm_skip, IH].
Qed.

Lemma insert_by_sorted {A : Type} (key : A -> Z) (x : A) (l : list A) :
  Sorted (key_le key) l -> Sorted (key_le key) (insert_by key x l).
Proof.
  induction l as [| y l IH]; simpl; intros Hs.
  - constructor; constructor.
  - destruct (key x <=? key y) eqn:E.
    + constructor; [exact Hs | constructor; unfold key_le; lia].
    + inversion Hs as [| ? ? Hs' Hhd]; subst.
      constructor; [apply IH, Hs' |].
      destruct l as [| z l]; simpl.
      * constructor. unfold key_le. lia.
      * destruct (key x <=? key z) eqn:E'; constructor; unfold key_le; try lia.
        inversion Hhd; subst. assumption.
Qed.

Lemma order_by_sorted {A : Type} (key : A -> Z) (l : list A) :
  Sorted (key_le key) (order_by key l).
Proof.
  induction l as [| x l IH]; simpl; [constructor | apply insert_by_sorted, IH].
Qed.

(** C8, as the code has it.  [get_by_specification] always returns: the
    items of the specification, each once, in ascending [order_index]; it does
    not look at the specifications table, so an id that names no
    specification gets the list of the items that carry that id (none, when
    every item points to a specification). *)
Theorem get_by_specification_sorted (db : Database) (spec_id : Z) :
  exists l,
    ItemRepository.get_by_specification db spec_id = Ok l
    /\ Permutation l (items_of db spec_id)
    /\ StronglySorted (key_le Item.order_index) l
    /\ ((forall it, In it (items db) -> specification_exists db (Item.spec_id it) = true) ->
        specification_exists db spec_id = false -> l = []).
Proof.
  exists (order_by Item.order_index (items_of db spec_id)).
  split; [reflexivity |]. split; [apply order_by_perm |]. split.
  - apply Sorted_StronglySorted; [| apply order_by_sorted].
    intros a b c Hab Hbc. unfold key_le in *. lia.
  - intros Hfk Hmissing.
    assert (Hnil : items_of db spec_id = []).
    { unfold items_of. destruct (filter _ (items db)) as [| it rest] eqn:Hf; [reflexivity |].
      assert (Hin : In it (filter (fun it => Item.spec_id it =? spec_id) (items db)))
        by (rewrite Hf; left; reflexivity).
      apply filter_In in Hin. destruct Hin as [Hin Heq].
      specialize (Hfk it Hin). replace (Item.spec_id it) with spec_id in Hfk by lia.
      congruence. }
    rewrite Hnil. reflexivity.
Qed.

Lemma get_by_specification_sorted_witness :
  exists l,
    ItemRepository.get_by_specification db_no_specification 7 = Ok l /\ l = [].
Proof.
  destruct (get_by_specification_sorted db_no_specification 7) as [l [Hl [_ [_ Hnil]]]].
  exists l. split; [exact Hl |].
  apply Hnil; [intros it [] | reflexivity].
Defined.

(** C8, as the claim has it, fails: no specification 7 exists, and listing
    its items returns the empty list instead of raising. *)
Lemma get_by_specification_missing_parent_returns :
  specification_exists db_no_specification 7 = false
  /\ ItemRepository.get_by_specification db_no_specification 7 = Ok []
  /\ ~ raises (ItemRepository.get_by_specification db_no_specification 7).
Proof.
  split; [reflexivity | split; [reflexivity |]].
  intros [e He]. discriminate He.
Qed.

(** ** The limit of ten items *)

Lemma create_item_row_ok (db : Database) (s : Z) (content c : string) (i : Z) :
  Item.validate_content content = Ok c ->
  Validators.validate_order_index (Some i) = true ->
  zlength (items_of db s) < DATABASE_CONSTANTS.MAX_ITEMS_PER_SPECIFICATION ->
  specification_exists db s = true ->
  BaseRepository.create_item_row db s content i
  = Ok (Item.mk (items_seq db) s c i,
        mkDatabase (users db) (projects db) (specifications db)
                   (items db ++ [Item.mk (items_seq db) s c i])
                   (items_seq db + 1) (projects_seq db)).
Proof.
  intros Hc Hi Hn Hs.
  unfold BaseRepository.create_item_row, Item.init, Item.validate_order.
  rewrite Hc, Hi; simpl.
  unfold validate_item_count; simpl.
  destruct (zlength (items_of db s) >=? DATABASE_CONSTANTS.MAX_ITEMS_PER_SPECIFICATION) eqn:E;
    [lia |].
  simpl. rewrite Hs. reflexivity.
Qed.

Lemma create_item_ok (db : Database) (d : ItemRepository.ItemData) (c : string) :
  Item.validate_content (ItemRepository.content d) = Ok c ->
  Validators.validate_order_index (Some (ItemRepository.chosen_order_index db d)) = true ->
  zlength (items_of db (ItemRepository.spec_id d))
    < DATABASE_CONSTANTS.MAX_ITEMS_PER_SPECIFICATION ->
  specification_exists db (ItemRepository.spec_id d) = true ->
  let it := Item.mk (items_seq db) (ItemRepository.spec_id d) c
                    (ItemRepository.chosen_order_index db d) in
  ItemRepository.create_item db d
  = Ok (it, mkDatabase (users db) (projects db) (specifications db)
                       (items db ++ [it]) (items_seq db + 1) (projects_seq db)).
Proof.
  intros Hc Hi Hn Hs it. unfold ItemRepository.create_item.
  destruct (zlength (items_of db (ItemRepository.spec_id d))
              >=? DATABASE_CONSTANTS.MAX_ITEMS_PER_SPECIFICATION) eqn:E; [lia |].
  apply create_item_row_ok; assumption.
Qed.

Lemma create_item_full (db : Database) (d : ItemRepository.ItemData) :
  zlength (items_of db (ItemRepository.spec_id d))
    >= DATABASE_CONSTANTS.MAX_ITEMS_PER_SPECIFICATION ->
  ItemRepository.create_item db d = Raise (ValueError ERROR_MESSAGES.MAX_ITEMS_REACHED).
Proof.
  intros Hn. unfold ItemRepository.create_item.
  destruct (zlength (items_of db (ItemRepository.spec_id d))
              >=? DATABASE_CONSTANTS.MAX_ITEMS_PER_SPECIFICATION) eqn:E; [reflexivity | lia].
Qed.

Lemma items_of_after_insert (db : Database) (it : Item.Item) (s : Z) (n m : Z) :
  items_of (mkDatabase (users db) (projects db) (specifications db)
                       (items db ++ [it]) n m) s
  = items_of db s ++ (if Item.spec_id it =? s then [it] else []).
Proof.
  unfold items_of; simpl. rewrite filter_app. simpl.
  destruct (Item.spec_id it =? s); reflexivity.
Qed.

(** C4.  On an existing specification that holds nine items, a
    [create_item] with valid content and a valid index succeeds and the
    specification then holds ten; any further [create_item] on it raises
    [ValueError] with the MAX_ITEMS_REACHED message.  A call that raises
    returns no new database: the table, and so the count, stays as it was. *)
Theorem create_item_limit (db : Database) (d further : ItemRepository.ItemData)
    (c : string) :
  specification_exists db (ItemRepository.spec_id d) = true ->
  zlength (items_of db (ItemRepository.spec_id d))
    = DATABASE_CONSTANTS.MAX_ITEMS_PER_SPECIFICATION - 1 ->
  Item.validate_content (ItemRepository.content d) = Ok c ->
  Validators.validate_order_index (Some (ItemRepository.chosen_order_index db d)) = true ->
  ItemRepository.spec_id further = ItemRepository.spec_id d ->
  exists it db',
    ItemRepository.create_item db d = Ok (it, db')
    /\ In it (items db')
    /\ zlength (items_of db' (ItemRepository.spec_id d))
       = DATABASE_CONSTANTS.MAX_ITEMS_PER_SPECIFICATION
    /\ ItemRepository.create_item db' further
       = Raise (ValueError ERROR_MESSAGES.MAX_ITEMS_REACHED).
Proof.
  intros Hs Hn Hc Hi Hsame.
  assert (Hlt : zlength (items_of db (ItemRepository.spec_id d))
                < DATABASE_CONSTANTS.MAX_ITEMS_PER_SPECIFICATION) by lia.
  pose proof (create_item_ok db d c Hc Hi Hlt Hs) as Hok. simpl in Hok.
  eexists. eexists. split; [exact Hok |].
  assert (Hcount :
    zlength (items_of (mkDatabase (users db) (projects db) (specifications db)
                         (items db ++ [Item.mk (items_seq db) (ItemRepository.spec_id d) c
                                           (ItemRepository.chosen_order_index db d)])
                         (items_seq db + 1) (projects_seq db))
                      (ItemRepository.spec_id d))
    = DATABASE_CONSTANTS.MAX_ITEMS_PER_SPECIFICATION).
  { rewrite items_of_after_insert. simpl. rewrite Z.eqb_refl.
    unfold zlength in *. rewrite length_app. simpl. lia. }
  split; [simpl; apply in_or_app; right; left; reflexivity |].
  split; [exact Hcount |].
  apply create_item_full. rewrite Hsame, Hcount. lia.
Qed.

Lemma create_item_limit_witness :
  exists it db',
    ItemRepository.create_item db_nine_items (ItemRepository.mkItemData 7 "tenth" (Some 9))
    = Ok (it, db')
    /\ In it (items db')
    /\ zlength (items_of db' 7) = 10
    /\ ItemRepository.create_item db' (ItemRepository.mkItemData 7 "eleventh" None)
       = Raise (ValueError ERROR_MESSAGES.MAX_ITEMS_REACHED).
Proof.
  apply (create_item_limit db_nine_items
           (ItemRepository.mkItemData 7 "tenth" (Some 9))
           (ItemRepository.mkItemData 7 "eleventh" None) "tenth");
    reflexivity.
Defined.

(** ** Moving a specification *)

(** C6, at the failing input.  Project 1 holds five specifications at the
    indices 0 to 4 and its owner moves specification 5 to index 1.  The
    locking query that opens [update_order] is refused by the server, for
    this call and for every other: [update_order] raises
    [NotSupportedError], no index is shifted and the cache is left alone. *)
Theorem update_order_raises_at_locking_query :
  SpecificationRepository.update_order db_five_specifications [] 5 1 test_owner
  = (Raise NotSupportedError, [])
  /\ (forall db cache spec_id new_order_index owner_id,
        SpecificationRepository.update_order db cache spec_id new_order_index owner_id
        = (Raise NotSupportedError, cache)).
Proof.
  split; [reflexivity |]. intros db cache spec_id new_order_index owner_id. reflexivity.
Qed.

(** ** Creating a project *)

(** No [Project] is ever constructed: an empty owner or a refused title
    raises [ValueError], and a title that passes is stopped by the
    [@validates] event. *)
Lemma project_construction_raises (sanitize_string : string -> string)
    (title owner_id : string) :
  exists e, ProjectRepository.init sanitize_string title owner_id = Raise e.
Proof.
  unfold ProjectRepository.init.
  destruct (String.eqb owner_id ""); [eexists; reflexivity |].
  destruct (ProjectRepository.validate_title sanitize_string title) as [t | e];
    cbn [bind]; eexists; reflexivity.
Qed.

(** C10, at the failing inputs.  With nothing remembered for the owner,
    [create_project] raises [InvalidRequestError] inside [get_by_owner],
    before any count is compared: for the owner of 100 projects this is not
    the MAX_ITEMS_REACHED [ValueError], and for the owner of one project no
    project is created.  Whatever is remembered, [create_project] never
    returns a project, because the construction of a [Project] raises. *)
Theorem create_project_raises_before_the_limit (sanitize_string : string -> string)
    (by_updated_at_desc : list Project.Project -> list Project.Project) :
  ProjectRepository.create_project sanitize_string by_updated_at_desc
    db_hundred_projects [] test_owner "One more"
  = (Raise InvalidRequestError, [])
  /\ ProjectRepository.create_project sanitize_string by_updated_at_desc
       db_empty_spec [] test_owner "Second"
     = (Raise InvalidRequestError, [])
  /\ (forall db owner_id title,
        ProjectRepository.create_project sanitize_string by_updated_at_desc
          db [] owner_id title
        = (Raise InvalidRequestError, []))
  /\ (forall db memo owner_id title r,
        fst (ProjectRepository.create_project sanitize_string by_updated_at_desc
               db memo owner_id title) <> Ok r).
Proof.
  split; [reflexivity |]. split; [reflexivity |]. split; [intros; reflexivity |].
  intros db memo owner_id title r.
  unfold ProjectRepository.create_project, ProjectRepository.get_by_owner.
  destruct (ProjectRepository.memo_get memo owner_id) as [l |].
  - destruct (zlength l >=? DATABASE_CONSTANTS.MAX_SPECIFICATIONS_PER_PROJECT);
      [discriminate |].
    unfold ProjectRepository.create_row.
    destruct (project_construction_raises sanitize_string title owner_id) as [e He].
    rewrite He. cbn [bind fst]. discriminate.
  - cbn. discriminate.
Qed.

(** ** Reordering items: what is checked *)

Lemma mem_In (x : Z) (l : list Z) : mem x l = true <-> In x l.
Proof.
  unfold mem. rewrite existsb_exists. split.
  - intros [y [Hin Heq]]. apply Z.eqb_eq in Heq. subst y. exact Hin.
  - intros Hin. exists x. split; [exact Hin | apply Z.eqb_refl].
Qed.

(** Selecting rows keeps their primary keys distinct. *)
Lemma item_ids_filter_NoDup (p : Item.Item -> bool) (rows : list Item.Item) :
  NoDup (map Item.item_id rows) -> NoDup (map Item.item_id (filter p rows)).
Proof.
  intros Hnd. induction rows as [| r rows IH]; simpl; [constructor |].
  simpl in Hnd. inversion Hnd as [| ? ? Hnotin Hnd']; subst.
  destruct (p r); simpl; [| apply IH, Hnd'].
  constructor; [| apply IH, Hnd'].
  intros Hin. apply Hnotin.
  apply in_map_iff in Hin. destruct Hin as [y [Hy Hin]].
  apply filter_In in Hin. apply in_map_iff. exists y. tauto.
Qed.

Lemma in_items_of (db : Database) (s : Z) (it : Item.Item) :
  In it (items_of db s) <-> In it (items db) /\ Item.spec_id it = s.
Proof.
  unfold items_of. rewrite filter_In, Z.eqb_eq. reflexivity.
Qed.

(** The ids of the rows [update_order] selects: those of the specification's
    items that the request names. *)
Lemma in_found_ids (db : Database) (s : Z) (ids : list Z) (i : Z) :
  In i (map Item.item_id
          (filter (fun it => (Item.spec_id it =? s) && mem (Item.item_id it) ids) (items db)))
  <-> In i (map Item.item_id (items_of db s)) /\ In i ids.
Proof.
  rewrite !in_map_iff. split.
  - intros [it [Hid Hin]]. apply filter_In in Hin. destruct Hin as [Hin Hp].
    apply andb_true_iff in Hp. destruct Hp as [Hs Hm].
    apply mem_In in Hm. rewrite Hid in Hm. split; [| exact Hm].
    exists it. split; [exact Hid |]. apply in_items_of. split; [exact Hin | lia].
  - intros [[it [Hid Hin]] Hm]. apply in_items_of in Hin. destruct Hin as [Hin Hs].
    exists it. split; [exact Hid |]. apply filter_In. split; [exact Hin |].
    apply andb_true_iff. split; [lia |]. apply mem_In. rewrite Hid. exact Hm.
Qed.

(** The length test of [update_order] passes exactly when the request names
    distinct items of the specification. *)
Lemma update_order_length_test (db : Database) (s : Z) (ids : list Z) :
  NoDup (map Item.item_id (items db)) ->
  List.length
    (filter (fun it => (Item.spec_id it =? s) && mem (Item.item_id it) ids) (items db))
  = List.length ids
  <-> NoDup ids /\ incl ids (map Item.item_id (items_of db s)).
Proof.
  intros Hnd.
  set (found := filter (fun it => (Item.spec_id it =? s) && mem (Item.item_id it) ids)
                       (items db)).
  assert (HndM : NoDup (map Item.item_id found)) by (apply item_ids_filter_NoDup, Hnd).
  assert (HinclM : incl (map Item.item_id found) ids).
  { intros i Hi. apply in_found_ids in Hi. tauto. }
  rewrite <- (length_map Item.item_id found).
  split.
  - intros Hlen.
    assert (Hback : incl ids (map Item.item_id found)).
    { apply NoDup_length_incl; [exact HndM | lia | exact HinclM]. }
    split.
    + apply NoDup_incl_NoDup with (l := map Item.item_id found); [exact HndM | lia | exact HinclM].
    + intros i Hi. apply Hback in Hi. apply in_found_ids in Hi. tauto.
  - intros [Hids Hincl].
    assert (Hback : incl ids (map Item.item_id found)).
    { intros i Hi. apply in_found_ids. split; [apply Hincl, Hi | exact Hi]. }
    apply Nat.le_antisymm.
    + apply NoDup_incl_length; assumption.
    + apply NoDup_incl_length; assumption.
Qed.

Lemma item_set_order_index_same (it : Item.Item) :
  Item.set_order_index it (Item.order_index it) = it.
Proof. destruct it; reflexivity. Qed.

Lemma fits_integer_spec (n : Z) :
  Orm.fits_integer n = true <-> -2147483648 <= n <= 2147483647.
Proof. unfold Orm.fits_integer. lia. Qed.

(** The loop of [update_order] on the server: it goes through exactly when
    every index fits the column, and then writes what the plain loop
    writes. *)
Lemma write_updates_inv (ups : list ItemRepository.OrderUpdate) :
  forall rows r,
    ItemRepository.write_updates rows ups = Ok r ->
    r = ItemRepository.apply_updates rows ups
    /\ forallb (fun u => Orm.fits_integer (ItemRepository.upd_order_index u)) ups = true.
Proof.
  induction ups as [| u ups IH]; intros rows r H; simpl in H.
  - injection H as H. subst r. split; reflexivity.
  - unfold ItemRepository.write_update in H.
    destruct (Orm.fits_integer (ItemRepository.upd_order_index u)) eqn:E;
      cbn [bind] in H; [| discriminate H].
    destruct (IH _ _ H) as [Hr Hall]. split; [exact Hr |].
    simpl. rewrite E, Hall. reflexivity.
Qed.

Lemma write_updates_fit (ups : list ItemRepository.OrderUpdate) :
  forall rows,
    forallb (fun u => Orm.fits_integer (ItemRepository.upd_order_index u)) ups = true ->
    ItemRepository.write_updates rows ups = Ok (ItemRepository.apply_updates rows ups).
Proof.
  induction ups as [| u ups IH]; intros rows H; simpl in *; [reflexivity |].
  apply andb_true_iff in H. destruct H as [Hu Hrest].
  unfold ItemRepository.write_update. rewrite Hu. cbn [bind]. apply IH, Hrest.
Qed.

Lemma write_updates_refused (ups : list ItemRepository.OrderUpdate) :
  forall rows,
    forallb (fun u => Orm.fits_integer (ItemRepository.upd_order_index u)) ups = false ->
    ItemRepository.write_updates rows ups = Raise DataError.
Proof.
  induction ups as [| u ups IH]; intros rows H; simpl in *; [discriminate H |].
  unfold ItemRepository.write_update.
  destruct (Orm.fits_integer (ItemRepository.upd_order_index u)); cbn [bind];
    [apply IH, H | reflexivity].
Qed.

Lemma update_order_inv (db db' : Database) (s : Z)
    (ups : list ItemRepository.OrderUpdate) (l : list Item.Item) :
  ItemRepository.update_order db s ups = Ok (l, db') ->
  db' = set_items db (ItemRepository.apply_updates (items db) ups).
Proof.
  unfold ItemRepository.update_order.
  destruct (negb (Nat.eqb _ _)); [discriminate |].
  destruct (ItemRepository.write_updates (items db) ups) as [rows | e] eqn:E;
    cbn [bind]; [| discriminate].
  apply write_updates_inv in E. destruct E as [Hrows _]. subst rows.
  unfold ItemRepository.get_by_specification. cbn [bind].
  intros H. injection H as _ Hdb. symmetry. exact Hdb.
Qed.

(** The loop of [update_order], row by row. *)
Lemma apply_updates_rows (ups : list ItemRepository.OrderUpdate) (rows : list Item.Item) :
  ItemRepository.apply_updates rows ups
  = map (fun it => Item.set_order_index it
                     (last_update ups (Item.item_id it) (Item.order_index it))) rows.
Proof.
  unfold ItemRepository.apply_updates, last_update.
  revert rows. induction ups as [| u ups IH]; intros rows; simpl.
  - rewrite <- (map_id rows) at 1. apply map_ext. intros it.
    symmetry. apply item_set_order_index_same.
  - rewrite IH. unfold ItemRepository.apply_update, update_where. rewrite map_map.
    apply map_ext. intros it.
    destruct (Item.item_id it =? ItemRepository.upd_item_id u); reflexivity.
Qed.

Lemma last_update_unnamed (ups : list ItemRepository.OrderUpdate) (i d : Z) :
  ~ In i (map ItemRepository.upd_item_id ups) -> last_update ups i d = d.
Proof.
  unfold last_update. revert d. induction ups as [| u ups IH]; intros d Hout; simpl;
    [reflexivity |].
  simpl in Hout. destruct (i =? ItemRepository.upd_item_id u) eqn:E; [lia |].
  apply IH. tauto.
Qed.

Lemma last_update_named (ups : list ItemRepository.OrderUpdate)
    (u : ItemRepository.OrderUpdate) (d : Z) :
  NoDup (map ItemRepository.upd_item_id ups) -> In u ups ->
  last_update ups (ItemRepository.upd_item_id u) d = ItemRepository.upd_order_index u.
Proof.
  revert d. induction ups as [| v ups IH]; intros d Hnd Hin; [contradiction |].
  simpl in Hnd. inversion Hnd as [| ? ? Hfresh Hnd']; subst.
  destruct Hin as [Heq | Hin].
  - subst v. unfold last_update; simpl. rewrite Z.eqb_refl.
    apply (last_update_unnamed ups _ _ Hfresh).
  - unfold last_update; simpl.
    apply (IH (if ItemRepository.upd_item_id u =? ItemRepository.upd_item_id v
               then ItemRepository.upd_order_index v else d) Hnd' Hin).
Qed.

(** ** Reordering items: what is written *)

(** C3, as the code has it.  With unique primary keys, [update_order]
    raises [ValueError("Invalid item IDs in order update request")] unless
    the request names pairwise distinct items of the given specification.
    When it does, and an index it supplies does not fit the INTEGER column,
    the UPDATE is refused with [DataError]; when all indexes fit, the call
    succeeds, every named item of the specification ends with the index
    supplied for it, every item that is not named stays as it was, the
    table holds the same ids in the same places, and the list returned is
    the specification's items afterwards in ascending index.  The supplied indexes play no part in the
    decision beyond fitting the column. *)
Theorem update_order_checks_item_ids_only (db : Database) (spec_id : Z)
    (order_updates : list ItemRepository.OrderUpdate) :
  NoDup (map Item.item_id (items db)) ->
  let ids := map ItemRepository.upd_item_id order_updates in
  let named := NoDup ids /\ incl ids (map Item.item_id (items_of db spec_id)) in
  let in_range :=
    forall u, In u order_updates ->
              -2147483648 <= ItemRepository.upd_order_index u <= 2147483647 in
  (~ named ->
   ItemRepository.update_order db spec_id order_updates
   = Raise (ValueError "Invalid item IDs in order update request"))
  /\ (named -> ~ in_range ->
      ItemRepository.update_order db spec_id order_updates = Raise DataError)
  /\ (named -> in_range ->
      exists l db',
        ItemRepository.update_order db spec_id order_updates = Ok (l, db')
        /\ (forall u, In u order_updates ->
              exists it,
                In it (items_of db spec_id)
                /\ Item.item_id it = ItemRepository.upd_item_id u
                /\ In (Item.set_order_index it (ItemRepository.upd_order_index u))
                      (items db'))
        /\ (forall it, In it (items db) -> ~ In (Item.item_id it) ids ->
                       In it (items db'))
        /\ map Item.item_id (items db') = map Item.item_id (items db)
        /\ l = order_by Item.order_index (items_of db' spec_id)).
Proof.
  intros Hnd ids named in_range.
  pose proof (update_order_length_test db spec_id ids Hnd) as Htest.
  replace (List.length ids) with (List.length order_updates) in Htest
    by (unfold ids; rewrite length_map; reflexivity).
  assert (Hfit : in_range
                 <-> forallb (fun u => Orm.fits_integer (ItemRepository.upd_order_index u))
                             order_updates = true).
  { rewrite forallb_forall. unfold in_range. split; intros H u Hu.
    - apply fits_integer_spec, H, Hu.
    - apply fits_integer_spec, H, Hu. }
  unfold ItemRepository.update_order. fold ids.
  destruct (Nat.eqb _ (List.length order_updates)) eqn:E; cbn [negb].
  - apply Nat.eqb_eq in E. apply Htest in E.
    split; [intros Hbad; exfalso; apply Hbad, E |].
    split.
    + intros _ Hout. rewrite write_updates_refused; [reflexivity |].
      destruct (forallb _ order_updates) eqn:F; [| reflexivity].
      exfalso. apply Hout, Hfit. reflexivity.
    + intros [HndU Hincl] Hin. rewrite write_updates_fit by (apply Hfit, Hin).
      unfold ItemRepository.get_by_specification. cbn [bind].
      eexists. eexists. split; [reflexivity |].
      cbn [items set_items]. rewrite apply_updates_rows.
      split; [| split; [| split; [rewrite map_map; reflexivity | reflexivity]]].
      * intros u Hu.
        assert (Hnamed : In (ItemRepository.upd_item_id u)
                            (map Item.item_id (items_of db spec_id)))
          by (apply Hincl, in_map, Hu).
        apply in_map_iff in Hnamed. destruct Hnamed as [it [Hid Hit]].
        exists it. split; [exact Hit |]. split; [exact Hid |].
        apply in_items_of in Hit. destruct Hit as [Hit _].
        apply in_map_iff. exists it. split; [| exact Hit].
        rewrite Hid, (last_update_named order_updates u _ HndU Hu). reflexivity.
      * intros it Hit Hunnamed. apply in_map_iff. exists it. split; [| exact Hit].
        rewrite (last_update_unnamed order_updates _ _ Hunnamed).
        apply item_set_order_index_same.
  - apply Nat.eqb_neq in E.
    split; [intros _; reflexivity |].
    split; [intros Hgood; exfalso; apply E, Htest, Hgood |].
    intros Hgood. exfalso. apply E, Htest, Hgood.
Qed.

Lemma update_order_checks_item_ids_only_witness :
  (exists l db',
     ItemRepository.update_order db_three_items 7
       [ItemRepository.mkOrderUpdate 3 0; ItemRepository.mkOrderUpdate 1 2]
     = Ok (l, db')
     /\ In (Item.mk 3 7 "c" 0) (items db')
     /\ In (Item.mk 1 7 "a" 2) (items db')
     /\ In (Item.mk 2 7 "b" 1) (items db'))
  /\ ItemRepository.update_order db_three_items 7
       [ItemRepository.mkOrderUpdate 3 0; ItemRepository.mkOrderUpdate 8 2]
     = Raise (ValueError "Invalid item IDs in order update request")
  /\ ItemRepository.update_order db_three_items 7
       [ItemRepository.mkOrderUpdate 3 2147483648]
     = Raise DataError.
Proof.
  assert (Hkeys : NoDup (map Item.item_id (items db_three_items)))
    by (simpl; repeat constructor; simpl; intuition discriminate).
  split; [| split].
  - destruct (update_order_checks_item_ids_only db_three_items 7
                [ItemRepository.mkOrderUpdate 3 0; ItemRepository.mkOrderUpdate 1 2] Hkeys)
      as [_ [_ Hwritten]].
    destruct Hwritten as [l [db' [Hrun [Hnamed [Hunnamed _]]]]].
    + simpl. split.
      * repeat constructor; simpl; intuition discriminate.
      * intros i [H | [H | []]]; subst i; simpl; auto.
    + intros u [H | [H | []]]; subst u; simpl; lia.
    + exists l, db'. split; [exact Hrun |].
      split; [| split].
      * destruct (Hnamed (ItemRepository.mkOrderUpdate 3 0) (or_introl eq_refl))
          as [it [Hit [Hid Hin]]].
        simpl in Hit, Hid.
        destruct Hit as [H | [H | [H | []]]]; subst it; simpl in Hid;
          try discriminate Hid. exact Hin.
      * destruct (Hnamed (ItemRepository.mkOrderUpdate 1 2)
                    (or_intror (or_introl eq_refl))) as [it [Hit [Hid Hin]]].
        simpl in Hit, Hid.
        destruct Hit as [H | [H | [H | []]]]; subst it; simpl in Hid;
          try discriminate Hid. exact Hin.
      * apply Hunnamed; simpl; [auto | intuition discriminate].
  - apply (update_order_checks_item_ids_only db_three_items 7
             [ItemRepository.mkOrderUpdate 3 0; ItemRepository.mkOrderUpdate 8 2] Hkeys).
    simpl. intros [_ Hincl].
    specialize (Hincl 8 (or_intror (or_introl eq_refl))).
    simpl in Hincl. intuition discriminate.
  - apply (update_order_checks_item_ids_only db_three_items 7
             [ItemRepository.mkOrderUpdate 3 2147483648] Hkeys).
    + simpl. split.
      * repeat constructor; simpl; intuition discriminate.
      * intros i [H | []]; subst i; simpl; auto.
    + intros Hin. specialize (Hin _ (or_introl eq_refl)). simpl in Hin. lia.
Defined.

(** C3, as the claim has it, fails: a request that gives item 1 of three the
    index 5 is applied, although the indices it supplies are not
    [0, 1, 2] and the indices stored afterwards are 1, 2, 5. *)
Lemma update_order_accepts_non_permutation :
  exists l db',
    ItemRepository.update_order db_three_items 7 [ItemRepository.mkOrderUpdate 1 5]
    = Ok (l, db')
    /\ map Item.order_index l = [1; 2; 5]
    /\ ~ Permutation (map ItemRepository.upd_order_index [ItemRepository.mkOrderUpdate 1 5])
                     (zrange (List.length (items_of db_three_items 7))).
Proof.
  eexists. eexists. split; [reflexivity |]. split; [reflexivity |].
  intros Hperm. apply Permutation_length in Hperm. discriminate Hperm.
Qed.

(** ** Sorting and selection *)

Lemma order_by_strongly_sorted {A : Type} (key : A -> Z) (l : list A) :
  StronglySorted (key_le key) (order_by key l).
Proof.
  apply Sorted_StronglySorted; [| apply order_by_sorted].
  intros a b c Hab Hbc. unfold key_le in *. lia.
Qed.

Lemma filter_map_same_test {A : Type} (p : A -> bool) (f : A -> A) (l : list A) :
  (forall x, p (f x) = p x) -> filter p (map f l) = map f (filter p l).
Proof.
  intros Hp. induction l as [| x l IH]; simpl; [reflexivity |].
  rewrite Hp. destruct (p x); simpl; rewrite IH; reflexivity.
Qed.

(** ** The ordering invariant *)

(** *** Index lists that are [0 .. n-1] *)

Lemma zrange_In (n : nat) (x : Z) : In x (zrange n) <-> 0 <= x < Z.of_nat n.
Proof.
  unfold zrange. rewrite in_map_iff. split.
  - intros [k [Hk Hin]]. apply in_seq in Hin. lia.
  - intros Hx. exists (Z.to_nat x). split; [lia |]. apply in_seq. lia.
Qed.

Lemma NoDup_map_on {A B : Type} (f : A -> B) (l : list A) :
  NoDup l ->
  (forall x y, In x l -> In y l -> f x = f y -> x = y) ->
  NoDup (map f l).
Proof.
  intros Hnd. induction Hnd as [| x l Hfresh Hnd IH]; simpl; intros Hinj; [constructor |].
  constructor.
  - intros Hin. apply in_map_iff in Hin. destruct Hin as [y [Hy Hin]].
    apply Hfresh. rewrite (Hinj x y); [exact Hin | left; reflexivity | right; exact Hin |].
    symmetry. exact Hy.
  - apply IH. intros a b Ha Hb. apply Hinj; right; assumption.
Qed.

Lemma zrange_NoDup (n : nat) : NoDup (zrange n).
Proof.
  unfold zrange. apply NoDup_map_on; [apply seq_NoDup |].
  intros x y _ _ Hxy. lia.
Qed.

Lemma zrange_length (n : nat) : List.length (zrange n) = n.
Proof. unfold zrange. rewrite length_map, length_seq. reflexivity. Qed.

Lemma zrange_succ (n : nat) : zrange (S n) = zrange n ++ [Z.of_nat n].
Proof. unfold zrange. rewrite seq_S, map_app. reflexivity. Qed.

Lemma dense_indices_iff (l : list Z) :
  Permutation l (zrange (List.length l))
  <-> NoDup l /\ (forall x, In x l -> 0 <= x < Z.of_nat (List.length l)).
Proof.
  split.
  - intros Hperm. split.
    + apply (Permutation_NoDup (Permutation_sym Hperm)). apply zrange_NoDup.
    + intros x Hx. apply zrange_In. apply (Permutation_in x Hperm Hx).
  - intros [Hnd Hrange]. apply NoDup_Permutation_bis; [exact Hnd | |].
    + rewrite zrange_length. lia.
    + intros x Hx. apply zrange_In. apply Hrange, Hx.
Qed.

(** *** The largest index of a dense list *)

Lemma sql_max_some (l : list Z) (m : Z) :
  sql_max l = Some m -> In m l /\ (forall x, In x l -> x <= m).
Proof.
  revert m. induction l as [| y l IH]; simpl; intros m Hm; [discriminate Hm |].
  destruct (sql_max l) as [m' |] eqn:E.
  - injection Hm as Hm. destruct (IH m' eq_refl) as [Hin Hle].
    split.
    + destruct (Z.max_spec y m') as [[_ Hmax] | [_ Hmax]]; rewrite Hmax in Hm; subst m; auto.
    + intros x [Hx | Hx]; [lia | specialize (Hle x Hx); lia].
  - injection Hm as Hm. subst m. destruct l as [| z l]; [| simpl in E;
      destruct (sql_max l); discriminate E].
    split; [left; reflexivity |]. intros x [Hx | []]. lia.
Qed.

Lemma sql_max_none (l : list Z) : sql_max l = None -> l = [].
Proof.
  destruct l as [| y l]; simpl; [reflexivity |].
  destruct (sql_max l); discriminate.
Qed.

Lemma sql_max_dense (l : list Z) :
  Permutation l (zrange (List.length l)) ->
  sql_max l = match List.length l with
              | O => None
              | S k => Some (Z.of_nat k)
              end.
Proof.
  intros Hperm. destruct (sql_max l) as [m |] eqn:E.
  - destruct (sql_max_some l m E) as [Hin Hle].
    destruct (List.length l) as [| k] eqn:Hlen.
    + destruct l; [contradiction | discriminate Hlen].
    + f_equal.
      assert (Hm : 0 <= m < Z.of_nat (S k)) by (apply zrange_In, (Permutation_in m Hperm Hin)).
      assert (Hk : In (Z.of_nat k) l).
      { apply (Permutation_in _ (Permutation_sym Hperm)). apply zrange_In. lia. }
      specialize (Hle _ Hk). lia.
  - rewrite (sql_max_none l E). reflexivity.
Qed.

(** On a dense specification that does not hold exactly one item, the index
    computed for an append is the number of items. *)
Lemma chosen_order_index_dense (db : Database) (d : ItemRepository.ItemData) :
  dense db (ItemRepository.spec_id d) ->
  positional db (Create d) ->
  ItemRepository.chosen_order_index db d
  = zlength (items_of db (ItemRepository.spec_id d)).
Proof.
  intros Hdense Hpos. unfold ItemRepository.chosen_order_index.
  simpl in Hpos. destruct Hpos as [Hgiven | [Hnone Hnot1]].
  - rewrite Hgiven. reflexivity.
  - rewrite Hnone. unfold dense in Hdense. rewrite <- (length_map Item.order_index) in Hdense.
    rewrite (sql_max_dense _ Hdense). rewrite length_map.
    unfold zlength in *. destruct (List.length (items_of db (ItemRepository.spec_id d))) as [| k].
    + reflexivity.
    + rewrite py_or_nonzero; lia.
Qed.

(** *** What a successful operation leaves in the table *)

Lemma create_item_inv (db db' : Database) (d : ItemRepository.ItemData) (it : Item.Item) :
  ItemRepository.create_item db d = Ok (it, db') ->
  items db' = items db ++ [it]
  /\ items_seq db' = items_seq db + 1
  /\ Item.item_id it = items_seq db
  /\ Item.spec_id it = ItemRepository.spec_id d
  /\ Item.order_index it = ItemRepository.chosen_order_index db d.
Proof.
  unfold ItemRepository.create_item, BaseRepository.create_item_row, Item.init,
    Item.validate_order, validate_item_count.
  destruct (zlength (items_of db (ItemRepository.spec_id d))
              >=? DATABASE_CONSTANTS.MAX_ITEMS_PER_SPECIFICATION) eqn:Hcount;
    [discriminate |].
  destruct (Item.validate_content (ItemRepository.content d)) as [c | e];
    [| discriminate].
  destruct (Validators.validate_order_index
              (Some (ItemRepository.chosen_order_index db d)));
    [| discriminate].
  cbn [bind negb Item.spec_id]. rewrite Hcount. cbn [bind].
  destruct (specification_exists db (ItemRepository.spec_id d)); [| discriminate].
  cbn [negb]. intros H. injection H as Hit Hdb. subst it db'. simpl. auto.
Qed.

(** *** Rows with the same primary key *)

Lemma same_id_same_row (rows : list Item.Item) (a b : Item.Item) :
  NoDup (map Item.item_id rows) -> In a rows -> In b rows ->
  Item.item_id a = Item.item_id b -> a = b.
Proof.
  induction rows as [| r rows IH]; simpl; intros Hnd Ha Hb Hid; [contradiction |].
  inversion Hnd as [| ? ? Hfresh Hnd']; subst.
  destruct Ha as [Ha | Ha], Hb as [Hb | Hb].
  - congruence.
  - subst r. exfalso. apply Hfresh. rewrite Hid. apply in_map, Hb.
  - subst r. exfalso. apply Hfresh. rewrite <- Hid. apply in_map, Ha.
  - apply IH; assumption.
Qed.

(** *** Each operation keeps the primary keys in order *)

Lemma well_formed_after_create (db db' : Database) (d : ItemRepository.ItemData)
    (it : Item.Item) :
  well_formed db -> ItemRepository.create_item db d = Ok (it, db') -> well_formed db'.
Proof.
  intros [Hnd Hseq] Hrun.
  destruct (create_item_inv db db' d it Hrun) as [Hrows [Hnext [Hid _]]].
  unfold well_formed. rewrite Hrows, Hnext. split.
  - rewrite map_app. simpl.
    apply (Permutation_NoDup (Permutation_cons_append _ _)).
    constructor; [| exact Hnd].
    intros Hin. apply in_map_iff in Hin. destruct Hin as [x [Hx Hin]].
    specialize (Hseq x Hin). lia.
  - intros x Hx. apply in_app_or in Hx. destruct Hx as [Hx | [Hx | []]].
    + specialize (Hseq x Hx). lia.
    + subst x. lia.
Qed.

Lemma well_formed_after_updates (db : Database) (ups : list ItemRepository.OrderUpdate) :
  well_formed db ->
  well_formed (set_items db (ItemRepository.apply_updates (items db) ups)).
Proof.
  intros [Hnd Hseq]. unfold well_formed; simpl. rewrite apply_updates_rows. split.
  - rewrite map_map. simpl. exact Hnd.
  - intros x Hx. apply in_map_iff in Hx. destruct Hx as [y [Hy Hin]].
    subst x. simpl. apply Hseq, Hin.
Qed.

(** *** Each positional operation keeps every specification dense *)

Lemma dense_after_create (db db' : Database) (d : ItemRepository.ItemData)
    (it : Item.Item) (s' : Z) :
  positional db (Create d) ->
  ItemRepository.create_item db d = Ok (it, db') ->
  dense db (ItemRepository.spec_id d) -> dense db s' -> dense db' s'.
Proof.
  intros Hpos Hrun Hown Hdense.
  destruct (create_item_inv db db' d it Hrun) as [Hrows [_ [_ [Hspec Hidx]]]].
  rewrite (chosen_order_index_dense db d Hown Hpos) in Hidx.
  unfold dense, items_of. rewrite Hrows, filter_app. simpl.
  destruct (Item.spec_id it =? s') eqn:E.
  - assert (Hs : s' = ItemRepository.spec_id d) by lia. subst s'.
    rewrite map_app, length_app. simpl. rewrite Nat.add_1_r, zrange_succ.
    rewrite Hidx. unfold zlength, items_of. apply Permutation_app_tail. exact Hdense.
  - rewrite app_nil_r. exact Hdense.
Qed.

Lemma last_update_default (ups : list ItemRepository.OrderUpdate) (i d d' : Z) :
  NoDup (map ItemRepository.upd_item_id ups) ->
  In i (map ItemRepository.upd_item_id ups) ->
  last_update ups i d = last_update ups i d'.
Proof.
  intros Hnd Hin. apply in_map_iff in Hin. destruct Hin as [u [Hu Hin]]. subst i.
  rewrite (last_update_named ups u d Hnd Hin), (last_update_named ups u d' Hnd Hin).
  reflexivity.
Qed.

Lemma dense_after_reorder (db : Database) (s : Z)
    (ups : list ItemRepository.OrderUpdate) (s' : Z) :
  NoDup (map Item.item_id (items db)) ->
  positional db (Reorder s ups) ->
  dense db s' ->
  dense (set_items db (ItemRepository.apply_updates (items db) ups)) s'.
Proof.
  intros Hnd [Hids Hidx] Hdense. unfold dense, items_of; simpl.
  rewrite apply_updates_rows.
  rewrite filter_map_same_test by (intros x; reflexivity).
  fold (items_of db s'). rewrite length_map, map_map. simpl.
  assert (HndI : NoDup (map Item.item_id (items_of db s)))
    by (apply item_ids_filter_NoDup, Hnd).
  assert (HndU : NoDup (map ItemRepository.upd_item_id ups))
    by (apply (Permutation_NoDup (Permutation_sym Hids) HndI)).
  destruct (Z.eq_dec s' s) as [Hs | Hs].
  - subst s'.
    rewrite (map_ext_in _ (fun it => last_update ups (Item.item_id it) 0)).
    + rewrite <- (map_map Item.item_id (fun i => last_update ups i 0)).
      apply perm_trans with (map (fun i => last_update ups i 0)
                                 (map ItemRepository.upd_item_id ups)).
      * apply Permutation_map. apply Permutation_sym. exact Hids.
      * rewrite map_map.
        rewrite (map_ext_in _ ItemRepository.upd_order_index); [exact Hidx |].
        intros u Hu. apply last_update_named; assumption.
    + intros x Hx. apply last_update_default; [exact HndU |].
      apply (Permutation_in _ (Permutation_sym Hids)). apply in_map, Hx.
  - rewrite (map_ext_in _ Item.order_index); [exact Hdense |].
    intros x Hx. apply last_update_unnamed. intros Hnamed.
    apply (Permutation_in _ Hids) in Hnamed. apply in_map_iff in Hnamed.
    destruct Hnamed as [y [Hy Hyin]].
    apply in_items_of in Hx, Hyin. destruct Hx as [Hx Hxs]. destruct Hyin as [Hyin Hys].
    apply Hs. rewrite <- Hxs, <- Hys. f_equal.
    apply (same_id_same_row (items db)); auto.
Qed.

Lemma positional_step_keeps_dense (db db' : Database) :
  positional_step db db' ->
  well_formed db /\ all_dense db -> well_formed db' /\ all_dense db'.
Proof.
  intros [o [Hpos Hrun]] [Hwf Hdense]. destruct o as [d | i | s ups]; simpl in Hrun.
  - apply bind_Ok_inv in Hrun. destruct Hrun as [[v dbv] [Hrun Hret]].
    simpl in Hret. injection Hret as Hret. subst dbv.
    split; [apply (well_formed_after_create db db' d v Hwf Hrun) |].
    intros s'. apply (dense_after_create db db' d v s' Hpos Hrun); apply Hdense.
  - discriminate Hrun.
  - apply bind_Ok_inv in Hrun. destruct Hrun as [[v dbv] [Hrun Hret]].
    simpl in Hret. injection Hret as Hret. subst dbv.
    apply update_order_inv in Hrun. subst db'.
    split; [apply well_formed_after_updates, Hwf |].
    intros s'. apply (dense_after_reorder db s ups s'); [apply Hwf | exact Hpos | apply Hdense].
Qed.

(** C1, as the code has it.  Starting from a database whose item ids are
    unique and below the next value of the id sequence and in which every
    specification is dense, every sequence of committed positional
    operations (creates that put the new item at the end, reorders that hand
    the indices [0 .. count-1] to all items of a specification) leaves the
    ids unique and below the sequence and every specification dense: its
    items' order indexes are exactly [0, 1, ..., count-1]. *)
Theorem positional_operations_keep_items_dense (db db' : Database) :
  well_formed db -> all_dense db ->
  clos_refl_trans Database positional_step db db' ->
  well_formed db' /\ all_dense db'.
Proof.
  intros Hwf Hdense Hreach.
  assert (Hinv : well_formed db /\ all_dense db) by (split; assumption).
  clear Hwf Hdense. induction Hreach as [a b Hstep | a | a b c _ IHab _ IHbc].
  - apply (positional_step_keeps_dense a b Hstep Hinv).
  - exact Hinv.
  - apply IHbc, IHab, Hinv.
Qed.

Lemma positional_operations_keep_items_dense_witness :
  well_formed db_after_session /\ all_dense db_after_session.
Proof.
  apply (positional_operations_keep_items_dense db_empty_spec db_after_session).
  - split; [constructor | intros it []].
  - intros s. apply Permutation_refl.
  - eapply rt_trans.
    { apply rt_step. exists (Create (ItemRepository.mkItemData 7 "a" (Some 0))).
      split; [left; reflexivity | reflexivity]. }
    eapply rt_trans.
    { apply rt_step. exists (Create (ItemRepository.mkItemData 7 "b" (Some 1))).
      split; [left; reflexivity | reflexivity]. }
    eapply rt_trans.
    { apply rt_step. exists (Create (ItemRepository.mkItemData 7 "c" None)).
      split; [right; split; [reflexivity | discriminate] | reflexivity]. }
    apply rt_step.
    exists (Reorder 7 [ItemRepository.mkOrderUpdate 1 1; ItemRepository.mkOrderUpdate 2 0;
                       ItemRepository.mkOrderUpdate 3 2]).
    split; [split; [apply Permutation_refl | apply perm_swap] | reflexivity].
Defined.

(** C1, as the claim has it, fails: from a specification without items, one
    committed [create_item] with the explicit index 5 leaves the index set
    {5}, which is not {0}. *)
Lemma committed_create_breaks_density :
  well_formed db_empty_spec /\ all_dense db_empty_spec
  /\ exists db',
       clos_refl_trans Database committed db_empty_spec db'
       /\ map Item.order_index (items_of db' 7) = [5]
       /\ ~ dense db' 7.
Proof.
  split; [split; [constructor | intros it []] |].
  split; [intros s; apply Permutation_refl |].
  eexists. split; [| split].
  - apply rt_step. exists (Create (ItemRepository.mkItemData 7 "x" (Some 5))). reflexivity.
  - reflexivity.
  - unfold dense. simpl. intros Hperm.
    apply Permutation_length_1 in Hperm. discriminate Hperm.
Qed.

(** * Further properties *)

(** ** utils/helpers.py: [calculate_order_index] *)

(** Linear arithmetic with floor division by a constant. *)
Ltac div_lia := Z.to_euclidean_division_equations; lia.

Lemma overflow_guard_spec (n : Z) :
  1 <= Helpers.overflow_guard n <= 999
  /\ (0 < n < 1000 -> Helpers.overflow_guard n = n)
  /\ (n <= 0 -> Helpers.overflow_guard n = 1)
  /\ (1000 <= n -> Helpers.overflow_guard n = 999).
Proof.
  unfold Helpers.overflow_guard, DATABASE_CONSTANTS.MIN_ORDER_INDEX,
    DATABASE_CONSTANTS.MAX_ORDER_INDEX.
  destruct (n <=? 0) eqn:Hlo; simpl.
  - repeat split; lia.
  - destruct (n >=? 1000) eqn:Hhi; repeat split; lia.
Qed.

Lemma zlength_nonneg {A : Type} (l : list A) : 0 <= zlength l.
Proof. unfold zlength. apply Nat2Z.is_nonneg. Qed.

Lemma sorted_permutation (l : list Z) : Permutation (Helpers.sorted l) l.
Proof. apply order_by_perm. Qed.

Lemma sorted_zlength (l : list Z) : zlength (Helpers.sorted l) = zlength l.
Proof.
  unfold zlength. f_equal. apply Permutation_length, sorted_permutation.
Qed.

Lemma sorted_ascending (l : list Z) : StronglySorted Z.le (Helpers.sorted l).
Proof. apply (order_by_strongly_sorted (fun x => x) l). Qed.

Lemma sorted_empty (l : list Z) : Helpers.sorted l = [] -> l = [].
Proof.
  intros Hs. apply Permutation_nil. rewrite <- Hs. apply sorted_permutation.
Qed.

Lemma ascending_last_greatest (s : list Z) (d : Z) :
  StronglySorted Z.le s -> s <> [] ->
  In (last s d) s /\ (forall x, In x s -> x <= last s d).
Proof.
  intros Hs. induction Hs as [| a s Hs IH Hall]; intros Hne; [contradiction |].
  destruct s as [| b s].
  - simpl. split; [left; reflexivity |]. intros x [Hx | []]. lia.
  - assert (Hne' : b :: s <> []) by discriminate.
    destruct (IH Hne') as [Hin Hmax].
    change (last (a :: b :: s) d) with (last (b :: s) d).
    split; [right; exact Hin |].
    intros x [Hx | Hx]; [| apply Hmax, Hx].
    subst x. rewrite Forall_forall in Hall. apply Hall, Hin.
Qed.

Lemma ascending_head_least (a : Z) (s : list Z) :
  StronglySorted Z.le (a :: s) -> forall x, In x (a :: s) -> a <= x.
Proof.
  intros Hs x [Hx | Hx]; [lia |].
  inversion Hs as [| ? ? _ Hall]; subst. rewrite Forall_forall in Hall. apply Hall, Hx.
Qed.

(** In an ascending list every element is at most the one before position
    [k] or at least the one at position [k]. *)
Lemma ascending_around_position (s : list Z) (k : nat) :
  StronglySorted Z.le s -> (0 < k < List.length s)%nat ->
  nth (k - 1) s 0 <= nth k s 0
  /\ In (nth (k - 1) s 0) s /\ In (nth k s 0) s
  /\ forall x, In x s -> x <= nth (k - 1) s 0 \/ nth k s 0 <= x.
Proof.
  intros Hs. revert k. induction Hs as [| a s Hs IH Hall]; intros k Hk; simpl in Hk; [lia |].
  rewrite Forall_forall in Hall.
  destruct k as [| [| k]]; [lia | |].
  - destruct s as [| b s]; simpl in Hk; [lia |]. simpl.
    split; [apply Hall; left; reflexivity |].
    split; [left; reflexivity |]. split; [right; left; reflexivity |].
    intros x [Hx | Hx]; [left; lia | right].
    apply (ascending_head_least b s Hs x Hx).
  - assert (Hk' : (0 < S k < List.length s)%nat) by lia.
    destruct (IH (S k) Hk') as [Hle [Hprev [Hnext Hsplit]]].
    replace (S (S k) - 1)%nat with (S k) by lia.
    replace (S k - 1)%nat with k in * by lia.
    change (nth (S k) (a :: s) 0) with (nth k s 0).
    change (nth (S (S k)) (a :: s) 0) with (nth (S k) s 0).
    split; [exact Hle |]. split; [right; exact Hprev |]. split; [right; exact Hnext |].
    intros x [Hx | Hx]; [| apply Hsplit, Hx].
    left. subst x. apply Hall, Hprev.
Qed.

(** X1.  [calculate_order_index] raises exactly when the list is not empty and
    a target position is given that is negative or beyond the length; the
    error is [ValueError("Target position out of bounds")].  Every index it
    returns lies in 1..999, so it passes [validate_order_index]; on an empty
    list it returns 500 whatever the target position. *)
Theorem calculate_order_index_range (l : list Z) (t : option Z) :
  match Helpers.calculate_order_index l t with
  | Ok n =>
      1 <= n <= 999
      /\ Validators.validate_order_index (Some n) = true
      /\ (l = [] -> n = 500)
      /\ (l = [] \/ t = None \/ exists p, t = Some p /\ 0 <= p <= zlength l)
  | Raise e =>
      e = ValueError "Target position out of bounds"
      /\ l <> [] /\ exists p, t = Some p /\ (p < 0 \/ p > zlength l)
  end.
Proof.
  unfold Helpers.calculate_order_index.
  destruct (Helpers.sorted l) as [| a s] eqn:Hs.
  - apply sorted_empty in Hs. subst l.
    change ((DATABASE_CONSTANTS.MAX_ORDER_INDEX - DATABASE_CONSTANTS.MIN_ORDER_INDEX) / 2)
      with 500.
    repeat split; try lia. left. reflexivity.
  - assert (Hne : l <> []) by (intros Hl; subst l; discriminate Hs).
    rewrite <- Hs, sorted_zlength.
    destruct t as [p |].
    + destruct ((p <? 0) || (p >? zlength l)) eqn:Hoob.
      * split; [reflexivity |]. split; [exact Hne |]. exists p. split; [reflexivity | lia].
      * destruct (overflow_guard_spec (Helpers.spaced_index (Helpers.sorted l) (Some p)))
          as [Hrange _].
        split; [exact Hrange |]. split; [rewrite validate_order_index_spec; lia |].
        split; [intros Hl; contradiction |].
        right. right. exists p. split; [reflexivity | lia].
    + destruct (overflow_guard_spec (Helpers.spaced_index (Helpers.sorted l) None))
        as [Hrange _].
      split; [exact Hrange |]. split; [rewrite validate_order_index_spec; lia |].
      split; [intros Hl; contradiction |]. right. left. reflexivity.
Qed.

Lemma calculate_order_index_tail (l : list Z) (t : option Z) :
  l <> [] -> t = None \/ t = Some (zlength l) ->
  Helpers.calculate_order_index l t
  = Ok (Helpers.overflow_guard
          (last (Helpers.sorted l) 0 + (1000 - last (Helpers.sorted l) 0) / 2)).
Proof.
  intros Hne Ht. unfold Helpers.calculate_order_index.
  destruct (Helpers.sorted l) as [| a s] eqn:Hs; [apply sorted_empty in Hs; contradiction |].
  rewrite <- Hs. unfold Helpers.spaced_index. rewrite sorted_zlength.
  destruct Ht as [Ht | Ht]; subst t; [reflexivity |].
  pose proof (zlength_nonneg l) as Hpos.
  replace ((zlength l <? 0) || (zlength l >? zlength l)) with false by lia.
  replace (zlength l >=? zlength l) with true by lia. reflexivity.
Qed.

(** X2.  Appending ([target_position] left out, or equal to the length) to a
    list that is not empty: the index returned is greater than every existing
    index exactly when every existing index is at most 998.  With an index of
    999 or more in the list the result is 999, at or below the largest. *)
Theorem calculate_order_index_append (l : list Z) (t : option Z) :
  l <> [] -> t = None \/ t = Some (zlength l) ->
  exists n,
    Helpers.calculate_order_index l t = Ok n
    /\ ((forall x, In x l -> x <= 998) <-> (forall x, In x l -> x < n))
    /\ ((exists x, In x l /\ 999 <= x) -> n = 999).
Proof.
  intros Hne Ht. rewrite (calculate_order_index_tail l t Hne Ht).
  eexists. split; [reflexivity |].
  assert (Hs : Helpers.sorted l <> []) by (intros H; apply sorted_empty in H; contradiction).
  destruct (ascending_last_greatest (Helpers.sorted l) 0 (sorted_ascending l) Hs)
    as [Hin Hmax].
  set (m := last (Helpers.sorted l) 0) in *.
  assert (Hml : In m l) by (apply (Permutation_in m (sorted_permutation l) Hin)).
  assert (Hmaxl : forall x, In x l -> x <= m).
  { intros x Hx. apply Hmax. apply (Permutation_in x (Permutation_sym (sorted_permutation l)) Hx). }
  destruct (overflow_guard_spec (m + (1000 - m) / 2)) as [Hr [Hmid [Hlow Hhigh]]].
  split; [split |].
  - intros Hall x Hx. specialize (Hall m Hml). specialize (Hmaxl x Hx).
    destruct (Z_le_gt_dec (m + (1000 - m) / 2) 0) as [Hle | Hgt].
    + rewrite (Hlow Hle). div_lia.
    + rewrite Hmid; div_lia.
  - intros Hall x Hx. specialize (Hall m Hml). specialize (Hmaxl x Hx).
    destruct (Z_le_gt_dec 999 m) as [Hbig | Hsmall]; [| div_lia].
    destruct (Z_le_gt_dec 1000 (m + (1000 - m) / 2)) as [Hge | Hlt].
    + rewrite (Hhigh Hge) in Hall. div_lia.
    + rewrite Hmid in Hall; div_lia.
  - intros [x [Hx Hbig]]. specialize (Hmaxl x Hx).
    destruct (Z_le_gt_dec 1000 (m + (1000 - m) / 2)) as [Hge | Hlt].
    + apply Hhigh, Hge.
    + rewrite Hmid; div_lia.
Qed.

Lemma calculate_order_index_append_witness :
  exists n,
    Helpers.calculate_order_index [250; 500; 0] None = Ok n
    /\ forall x, In x [250; 500; 0] -> x < n.
Proof.
  destruct (calculate_order_index_append [250; 500; 0] None) as [n [Hn [Hiff _]]].
  - discriminate.
  - left. reflexivity.
  - exists n. split; [exact Hn |]. apply Hiff.
    intros x [H | [H | [H | []]]]; subst x; lia.
Defined.

(** X3.  Inserting at the front (target position 0) of a list that is not
    empty: the index returned is smaller than every existing index exactly
    when every existing index is at least 2; otherwise the result is 1, at or
    above the smallest. *)
Theorem calculate_order_index_front (l : list Z) :
  l <> [] ->
  exists n,
    Helpers.calculate_order_index l (Some 0) = Ok n
    /\ ((forall x, In x l -> 2 <= x) <-> (forall x, In x l -> n < x))
    /\ ((exists x, In x l /\ x <= 1) -> n = 1).
Proof.
  intros Hne. unfold Helpers.calculate_order_index.
  pose proof (sorted_ascending l) as Hasc. pose proof (sorted_permutation l) as Hperm.
  pose proof (sorted_zlength l) as Hlen.
  destruct (Helpers.sorted l) as [| a s] eqn:Hs; [apply sorted_empty in Hs; contradiction |].
  assert (Hpos : 0 < zlength (a :: s)) by (unfold zlength; simpl; div_lia).
  replace ((0 <? 0) || (0 >? zlength (a :: s))) with false by div_lia.
  unfold Helpers.spaced_index.
  replace (0 >=? zlength (a :: s)) with false by div_lia.
  change (0 =? 0) with true. cbn iota.
  change (Helpers.at_position (a :: s) 0) with a.
  unfold DATABASE_CONSTANTS.MIN_ORDER_INDEX.
  eexists. split; [reflexivity |].
  assert (Hal : In a l) by (apply (Permutation_in a Hperm); left; reflexivity).
  assert (Hmin : forall x, In x l -> a <= x).
  { intros x Hx. apply (ascending_head_least a s Hasc).
    apply (Permutation_in x (Permutation_sym Hperm) Hx). }
  destruct (overflow_guard_spec (0 + (a - 0) / 2)) as [Hr [Hmid [Hlow Hhigh]]].
  split; [split |].
  - intros Hall x Hx. specialize (Hall a Hal). specialize (Hmin x Hx).
    destruct (Z_le_gt_dec 1000 (0 + (a - 0) / 2)) as [Hge | Hlt].
    + rewrite (Hhigh Hge). div_lia.
    + rewrite Hmid; div_lia.
  - intros Hall x Hx. specialize (Hall a Hal). specialize (Hmin x Hx).
    destruct (Z_le_gt_dec a 1) as [Hsmall | Hbig]; [| div_lia].
    rewrite Hlow in Hall; div_lia.
  - intros [x [Hx Hsmall]]. specialize (Hmin x Hx). apply Hlow. div_lia.
Qed.

Lemma calculate_order_index_front_witness :
  exists n,
    Helpers.calculate_order_index [250; 500; 10] (Some 0) = Ok n
    /\ forall x, In x [250; 500; 10] -> n < x.
Proof.
  destruct (calculate_order_index_front [250; 500; 10]) as [n [Hn [Hiff _]]].
  - discriminate.
  - exists n. split; [exact Hn |]. apply Hiff.
    intros x [H | [H | [H | []]]]; subst x; lia.
Defined.

(** X4.  Inserting between two neighbours (0 < target position < length):
    with [prev] and [next] the sorted indices around the position, when
    [0 <= prev], [next <= 1000] and they are at least 2 apart the index
    returned lies strictly between them and is not in the list; when
    [1 <= prev <= 999] and they are less than 2 apart it is [prev] itself, an
    index already in the list. *)
Theorem calculate_order_index_between (l : list Z) (p : Z) :
  0 < p < zlength l ->
  let prev := Helpers.at_position (Helpers.sorted l) (p - 1) in
  let next := Helpers.at_position (Helpers.sorted l) p in
  exists n,
    Helpers.calculate_order_index l (Some p) = Ok n
    /\ prev <= next /\ In prev l /\ In next l
    /\ (0 <= prev -> next <= 1000 -> 2 <= next - prev ->
          prev < n < next /\ ~ In n l)
    /\ (1 <= prev <= 999 -> next - prev < 2 -> n = prev).
Proof.
  intros Hp prev next. unfold Helpers.calculate_order_index.
  pose proof (sorted_ascending l) as Hasc. pose proof (sorted_permutation l) as Hperm.
  pose proof (sorted_zlength l) as Hlen.
  assert (Hk : (0 < Z.to_nat p < List.length (Helpers.sorted l))%nat)
    by (unfold zlength in *; div_lia).
  destruct (ascending_around_position (Helpers.sorted l) (Z.to_nat p) Hasc Hk)
    as [Hle [Hinp [Hinn Hsplit]]].
  replace (Z.to_nat p - 1)%nat with (Z.to_nat (p - 1)) in * by div_lia.
  fold (Helpers.at_position (Helpers.sorted l) (p - 1)) in Hle, Hinp, Hsplit.
  fold (Helpers.at_position (Helpers.sorted l) p) in Hle, Hinn, Hsplit.
  fold prev in Hle, Hinp, Hsplit. fold next in Hle, Hinn, Hsplit.
  unfold Helpers.spaced_index. fold prev next.
  destruct (Helpers.sorted l) as [| a s] eqn:Hs; [simpl in Hk; div_lia |].
  rewrite Hlen.
  replace ((p <? 0) || (p >? zlength l)) with false by div_lia.
  replace (p >=? zlength l) with false by div_lia.
  replace (p =? 0) with false by div_lia. cbn iota.
  eexists. split; [reflexivity |]. split; [exact Hle |].
  split; [apply (Permutation_in prev Hperm Hinp) |].
  split; [apply (Permutation_in next Hperm Hinn) |].
  destruct (overflow_guard_spec (prev + (next - prev) / 2)) as [Hr [Hmid _]].
  split.
  - intros H0 H1000 Hgap. rewrite Hmid by div_lia. split; [div_lia |].
    intros Hin. apply (Permutation_in _ (Permutation_sym Hperm)) in Hin.
    destruct (Hsplit _ Hin); div_lia.
  - intros Hprev Hgap. rewrite Hmid by div_lia.
    assert (Hz : (next - prev) / 2 = 0) by (apply Z.div_small; div_lia). div_lia.
Qed.

Lemma calculate_order_index_between_witness :
  exists n,
    Helpers.calculate_order_index [300; 100; 200] (Some 1) = Ok n
    /\ 100 < n < 200 /\ ~ In n [300; 100; 200].
Proof.
  destruct (calculate_order_index_between [300; 100; 200] 1) as [n [Hn [_ [_ [_ [Hfresh _]]]]]].
  - unfold zlength; simpl; lia.
  - exists n. split; [exact Hn |].
    change (Helpers.at_position (Helpers.sorted [300; 100; 200]) (1 - 1)) with 100 in Hfresh.
    change (Helpers.at_position (Helpers.sorted [300; 100; 200]) 1) with 200 in Hfresh.
    apply Hfresh; lia.
Defined.

(** ** utils/helpers.py: [generate_cache_key] *)

Lemma count_colons_replaced (s : string) :
  Helpers.count_colons (Helpers.replace_colon s) = O.
Proof.
  induction s as [| c s IH]; simpl; [reflexivity |].
  destruct (Ascii.eqb c ":"%char) eqn:E; simpl; [exact IH |].
  rewrite E. exact IH.
Qed.

Lemma replace_colon_idempotent (s : string) :
  Helpers.replace_colon (Helpers.replace_colon s) = Helpers.replace_colon s.
Proof.
  induction s as [| c s IH]; simpl; [reflexivity |].
  rewrite IH. destruct (Ascii.eqb c ":"%char) eqn:E; simpl; [reflexivity |].
  rewrite E. reflexivity.
Qed.

Lemma valid_resource_type_iff (t : string) :
  existsb (String.eqb t) Helpers.VALID_RESOURCE_TYPES = true
  <-> In t Helpers.VALID_RESOURCE_TYPES.
Proof.
  rewrite existsb_exists. split.
  - intros [x [Hin Heq]]. apply String.eqb_eq in Heq. subst x. exact Hin.
  - intros Hin. exists t. split; [exact Hin | apply String.eqb_refl].
Qed.

(** X5.  [generate_cache_key] raises [ValueError] exactly for a resource type
    outside project, specification, item and user.  A key it returns is the
    prefix, the type and the id with its colons replaced, so it holds exactly
    two colons; the id with colons replaced by underscores gets the same key,
    so two ids that differ only there share a key. *)
Theorem generate_cache_key_shape (resource_type resource_id : string) :
  match Helpers.generate_cache_key resource_type resource_id with
  | Ok key =>
      In resource_type Helpers.VALID_RESOURCE_TYPES
      /\ key = ("spec_mgmt:" ++ resource_type ++ ":"
                ++ Helpers.replace_colon resource_id)%string
      /\ Helpers.count_colons key = 2%nat
      /\ Helpers.generate_cache_key resource_type (Helpers.replace_colon resource_id)
         = Ok key
  | Raise e =>
      ~ In resource_type Helpers.VALID_RESOURCE_TYPES
      /\ e = ValueError
        "Invalid resource type. Must be one of: ['project', 'specification', 'item', 'user']"
  end.
Proof.
  unfold Helpers.generate_cache_key.
  destruct (existsb (String.eqb resource_type) Helpers.VALID_RESOURCE_TYPES) eqn:E; simpl.
  - apply valid_resource_type_iff in E. split; [exact E |]. split; [reflexivity |].
    rewrite replace_colon_idempotent. split; [| reflexivity].
    pose proof (count_colons_replaced resource_id) as Hid.
    destruct E as [E | [E | [E | [E | []]]]]; subst resource_type; simpl;
      rewrite Hid; reflexivity.
  - split; [| reflexivity]. intros Hin. apply valid_resource_type_iff in Hin. congruence.
Qed.

(** ** utils/validators.py: stripping and content *)

Lemma lstrip_head (s : string) :
  match Validators.lstrip s with
  | EmptyString => True
  | String c _ => Validators.is_space c = false
  end.
Proof.
  induction s as [| c s IH]; simpl; [exact I |].
  destruct (Validators.is_space c) eqn:E; [exact IH | exact E].
Qed.

Lemma rstrip_head (c : ascii) (r : string) :
  Validators.is_space c = false ->
  exists r', Validators.rstrip (String c r) = String c r'.
Proof.
  intros Hc. simpl. destruct (Validators.rstrip r) as [| c' r'].
  - rewrite Hc. exists EmptyString. reflexivity.
  - exists (String c' r'). reflexivity.
Qed.

Lemma rstrip_idempotent (s : string) :
  Validators.rstrip (Validators.rstrip s) = Validators.rstrip s.
Proof.
  induction s as [| c s IH]; simpl; [reflexivity |].
  destruct (Validators.rstrip s) as [| c' r'] eqn:E.
  - destruct (Validators.is_space c) eqn:Hc; simpl; [reflexivity |].
    rewrite Hc. reflexivity.
  - change (Validators.rstrip (String c (String c' r')))
      with (match Validators.rstrip (String c' r') with
            | EmptyString =>
                if Validators.is_space c then EmptyString else String c EmptyString
            | String a b => String c (String a b)
            end).
    rewrite IH. reflexivity.
Qed.

Lemma strip_idempotent (s : string) :
  Validators.strip (Validators.strip s) = Validators.strip s.
Proof.
  unfold Validators.strip. pose proof (lstrip_head s) as Hhead.
  destruct (Validators.lstrip s) as [| c r] eqn:E; [reflexivity |].
  destruct (rstrip_head c r Hhead) as [r' Hr]. rewrite Hr.
  change (Validators.lstrip (String c r'))
    with (if Validators.is_space c then Validators.lstrip r' else String c r').
  rewrite Hhead, <- Hr. apply rstrip_idempotent.
Qed.

Lemma validate_content_length_spec (s : string) :
  Validators.validate_content_length (Some s) = true
  <-> 1 <= Validators.len (Validators.strip s) <= 1000
      /\ Validators.dangerous_search (Validators.strip s) = false.
Proof.
  unfold Validators.validate_content_length, Validators.MIN_CONTENT_LENGTH,
    Validators.MAX_CONTENT_LENGTH.
  destruct (Validators.len (Validators.strip s) <? 1) eqn:Hlo;
    destruct (Validators.len (Validators.strip s) >? 1000) eqn:Hhi; simpl;
    try (split; [discriminate | intros [H _]; lia]).
  destruct (Validators.dangerous_search (Validators.strip s)); split; intros H;
    try discriminate; try reflexivity; try (split; [lia | reflexivity]).
  destruct H as [_ H]. discriminate H.
Qed.

(** X6.  What [Item.validate_content] lets through is what gets stored: the
    content without surrounding whitespace, 1 to 1000 characters long, free
    of the characters [<], [>], [&] and [;]; validating the stored content
    again accepts it unchanged. *)
Theorem validate_content_stored (content c : string) :
  Item.validate_content content = Ok c ->
  c = Validators.strip content
  /\ 1 <= Validators.len c <= 1000
  /\ Validators.dangerous_search c = false
  /\ Validators.strip c = c
  /\ Item.validate_content c = Ok c.
Proof.
  intros H. unfold Item.validate_content in H.
  destruct (String.eqb content "") eqn:Hempty; [discriminate H |].
  destruct (Validators.validate_content_length (Some content)) eqn:Hvalid;
    [| discriminate H].
  cbn [orb negb] in H. injection H as H. subst c.
  apply validate_content_length_spec in Hvalid. destruct Hvalid as [Hlen Hsafe].
  split; [reflexivity |]. split; [exact Hlen |]. split; [exact Hsafe |].
  split; [apply strip_idempotent |].
  assert (Hne : String.eqb (Validators.strip content) "" = false).
  { apply String.eqb_neq. intros Heq. rewrite Heq in Hlen.
    unfold Validators.len in Hlen. simpl in Hlen. lia. }
  assert (Hagain : Validators.validate_content_length (Some (Validators.strip content)) = true).
  { apply validate_content_length_spec. rewrite strip_idempotent. split; assumption. }
  unfold Item.validate_content. rewrite Hne, Hagain. cbn [orb negb].
  rewrite strip_idempotent. reflexivity.
Qed.

Lemma validate_content_stored_witness :
  Item.validate_content "  first item  " = Ok "first item"
  /\ Item.validate_content "first item" = Ok "first item".
Proof.
  assert (H : Item.validate_content "  first item  " = Ok "first item") by reflexivity.
  split; [exact H |].
  apply (validate_content_stored "  first item  " "first item" H).
Defined.

(** ** utils/validators.py: [validate_google_id] *)

Lemma digit_not_dangerous (c : ascii) :
  Validators.is_digit c = true -> Validators.dangerous_char c = false.
Proof.
  unfold Validators.is_digit, Validators.dangerous_char.
  generalize (nat_of_ascii c). intros n Hd.
  apply andb_true_iff in Hd. destruct Hd as [Hlo Hhi].
  apply Nat.leb_le in Hlo, Hhi.
  repeat (apply orb_false_iff; split); apply Nat.eqb_neq; lia.
Qed.

Lemma all_digits_not_dangerous (s : string) :
  Validators.all_digits s = true -> Validators.dangerous_search s = false.
Proof.
  induction s as [| c s IH]; simpl; [reflexivity |].
  intros H. apply andb_true_iff in H. destruct H as [Hc Hs].
  rewrite (digit_not_dangerous c Hc), (IH Hs). reflexivity.
Qed.

Lemma match_digits_to_end_exact (n : nat) (s : string) :
  String.length s = n ->
  Validators.match_digits_to_end n s = Validators.all_digits s.
Proof.
  revert s. induction n as [| n IH]; intros s Hlen.
  - destruct s; [reflexivity | discriminate Hlen].
  - destruct s as [| c s]; [discriminate Hlen |]. simpl.
    rewrite IH; [reflexivity |]. simpl in Hlen. lia.
Qed.

(** X7.  [validate_google_id] accepts exactly the strings that, once
    surrounding whitespace is stripped, are 21 characters long and made of
    the digits 0..9; [None] is refused.  The check for dangerous characters
    that follows the pattern never refuses anything. *)
Theorem validate_google_id_digits (google_id : option string) :
  Validators.validate_google_id google_id = true
  <-> exists s, google_id = Some s
                /\ String.length (Validators.strip s) = 21%nat
                /\ Validators.all_digits (Validators.strip s) = true.
Proof.
  unfold Validators.validate_google_id. destruct google_id as [s |].
  - destruct (String.eqb s "") eqn:Hempty.
    + apply String.eqb_eq in Hempty. subst s. split; [discriminate |].
      intros [s [Hs [Hlen _]]]. injection Hs as Hs. subst s. discriminate Hlen.
    + unfold Validators.len.
      destruct (Z.of_nat (String.length (Validators.strip s)) =? 21) eqn:Hlen;
        cbn [negb].
      * assert (Hl : String.length (Validators.strip s) = 21%nat) by lia.
        rewrite (match_digits_to_end_exact 21 _ Hl).
        destruct (Validators.all_digits (Validators.strip s)) eqn:Hd; cbn [negb].
        -- rewrite (all_digits_not_dangerous _ Hd). split; [| reflexivity].
           intros _. exists s. auto.
        -- split; [discriminate |]. intros [s' [Hs [_ Hd']]].
           injection Hs as Hs. subst s'. congruence.
      * split; [discriminate |]. intros [s' [Hs [Hl _]]].
        injection Hs as Hs. subst s'. lia.
  - split; [discriminate |]. intros [s [Hs _]]. discriminate Hs.
Qed.

(** ** db/repositories/items.py: more on [update_order] *)

Lemma update_order_names_items (db db' : Database) (s : Z)
    (ups : list ItemRepository.OrderUpdate) (l : list Item.Item) :
  NoDup (map Item.item_id (items db)) ->
  ItemRepository.update_order db s ups = Ok (l, db') ->
  NoDup (map ItemRepository.upd_item_id ups)
  /\ incl (map ItemRepository.upd_item_id ups) (map Item.item_id (items_of db s)).
Proof.
  intros Hnd Hrun. unfold ItemRepository.update_order in Hrun.
  destruct (Nat.eqb _ (List.length ups)) eqn:E; simpl in Hrun; [| discriminate Hrun].
  apply Nat.eqb_eq in E.
  apply (update_order_length_test db s (map ItemRepository.upd_item_id ups) Hnd).
  rewrite length_map. exact E.
Qed.

(** X10.  A successful [update_order] neither adds nor removes rows and
    changes no id, specification or content; rows it does not name, and all
    rows of other specifications, are left exactly as they were; every row it
    names belongs to the given specification and ends with the index that was
    given for it. *)
Theorem update_order_changes_named_rows_only (db db' : Database) (s : Z)
    (ups : list ItemRepository.OrderUpdate) (l : list Item.Item) :
  NoDup (map Item.item_id (items db)) ->
  ItemRepository.update_order db s ups = Ok (l, db') ->
  map Item.item_id (items db') = map Item.item_id (items db)
  /\ map Item.spec_id (items db') = map Item.spec_id (items db)
  /\ map Item.content (items db') = map Item.content (items db)
  /\ (forall s', s' <> s -> items_of db' s' = items_of db s')
  /\ (forall it, In it (items db) ->
        ~ In (Item.item_id it) (map ItemRepository.upd_item_id ups) ->
        In it (items db'))
  /\ (forall u, In u ups ->
        exists it, In it (items db) /\ Item.spec_id it = s
                   /\ Item.item_id it = ItemRepository.upd_item_id u
                   /\ In (Item.set_order_index it (ItemRepository.upd_order_index u))
                         (items db')).
Proof.
  intros Hnd Hrun.
  destruct (update_order_names_items db db' s ups l Hnd Hrun) as [HndU Hincl].
  apply update_order_inv in Hrun. subst db'. simpl. rewrite apply_updates_rows.
  split; [rewrite map_map; reflexivity |].
  split; [rewrite map_map; reflexivity |].
  split; [rewrite map_map; reflexivity |].
  split; [| split].
  - intros s' Hs'. unfold items_of; simpl.
    rewrite filter_map_same_test by (intros x; reflexivity).
    rewrite <- (map_id (filter _ (items db))) at 2. apply map_ext_in.
    intros x Hx. apply filter_In in Hx. destruct Hx as [Hx Hxs].
    rewrite last_update_unnamed; [apply item_set_order_index_same |].
    intros Hnamed. apply Hincl in Hnamed. apply in_map_iff in Hnamed.
    destruct Hnamed as [y [Hy Hyin]]. apply in_items_of in Hyin. destruct Hyin as [Hyin Hys].
    apply Hs'. rewrite <- Hys.
    rewrite (same_id_same_row (items db) y x Hnd Hyin Hx Hy). lia.
  - intros it Hit Hunnamed. apply in_map_iff. exists it. split; [| exact Hit].
    rewrite (last_update_unnamed ups _ _ Hunnamed). apply item_set_order_index_same.
  - intros u Hu.
    assert (Hnamed : In (ItemRepository.upd_item_id u) (map Item.item_id (items_of db s)))
      by (apply Hincl, in_map, Hu).
    apply in_map_iff in Hnamed. destruct Hnamed as [it [Hid Hit]].
    apply in_items_of in Hit. destruct Hit as [Hit Hs].
    exists it. split; [exact Hit |]. split; [exact Hs |]. split; [exact Hid |].
    apply in_map_iff. exists it. split; [| exact Hit].
    rewrite Hid, (last_update_named ups u _ HndU Hu). reflexivity.
Qed.

Lemma update_order_changes_named_rows_only_witness :
  In (Item.mk 2 7 "b" 1)
     (items (set_items db_three_items
               [Item.mk 1 7 "a" 2; Item.mk 2 7 "b" 1; Item.mk 3 7 "c" 0]))
  /\ items_of (set_items db_three_items
                 [Item.mk 1 7 "a" 2; Item.mk 2 7 "b" 1; Item.mk 3 7 "c" 0]) 8
     = items_of db_three_items 8.
Proof.
  destruct (update_order_changes_named_rows_only db_three_items
              (set_items db_three_items
                 [Item.mk 1 7 "a" 2; Item.mk 2 7 "b" 1; Item.mk 3 7 "c" 0]) 7
              [ItemRepository.mkOrderUpdate 3 0; ItemRepository.mkOrderUpdate 1 2]
              [Item.mk 3 7 "c" 0; Item.mk 2 7 "b" 1; Item.mk 1 7 "a" 2])
    as [_ [_ [_ [Hother [Hunnamed _]]]]].
  - simpl. repeat constructor; simpl; intuition discriminate.
  - reflexivity.
  - split.
    + apply Hunnamed; simpl; [auto | intuition discriminate].
    + apply Hother. discriminate.
Defined.

(** ** Sorted lists of indexes *)

Lemma ascending_keys {A : Type} (key : A -> Z) (l : list A) :
  StronglySorted (key_le key) l -> StronglySorted Z.le (map key l).
Proof.
  induction 1 as [| a l Hs IH Hall]; simpl; constructor; [exact IH |].
  rewrite Forall_forall in *. intros k Hk. apply in_map_iff in Hk.
  destruct Hk as [x [Hx Hin]]. subst k. apply (Hall x Hin).
Qed.

Lemma ascending_permutation_unique (l1 l2 : list Z) :
  StronglySorted Z.le l1 -> StronglySorted Z.le l2 -> Permutation l1 l2 -> l1 = l2.
Proof.
  intros H1. revert l2. induction H1 as [| a l1 Hs1 IH Hall1]; intros l2 H2 Hperm.
  - apply Permutation_nil in Hperm. subst l2. reflexivity.
  - destruct H2 as [| b l2 Hs2 Hall2].
    + apply Permutation_sym, Permutation_nil in Hperm. discriminate Hperm.
    + rewrite Forall_forall in Hall1, Hall2.
      assert (Hab : a = b).
      { assert (Ha : In a (b :: l2))
          by (apply (Permutation_in a Hperm); left; reflexivity).
        assert (Hb : In b (a :: l1))
          by (apply (Permutation_in b (Permutation_sym Hperm)); left; reflexivity).
        destruct Ha as [Ha | Ha]; [congruence |].
        destruct Hb as [Hb | Hb]; [congruence |].
        pose proof (Hall1 b Hb). pose proof (Hall2 a Ha). lia. }
      subst b. f_equal. apply IH; [exact Hs2 |].
      apply (Permutation_cons_inv Hperm).
Qed.

Lemma zrange_ascending (n : nat) : StronglySorted Z.le (zrange n).
Proof.
  induction n as [| n IH]; [constructor |].
  rewrite zrange_succ.
  assert (Hall : forall x, In x (zrange n) -> x <= Z.of_nat n)
    by (intros x Hx; apply zrange_In in Hx; lia).
  revert IH Hall. generalize (zrange n) as l. intros l.
  induction 1 as [| a l Hs IH Hfa]; intros Hall; simpl.
  - constructor; constructor.
  - constructor.
    + apply IH. intros x Hx. apply Hall. right. exact Hx.
    + rewrite Forall_forall in *. intros x Hx. apply in_app_or in Hx.
      destruct Hx as [Hx | [Hx | []]]; [apply Hfa, Hx |].
      subst x. apply Hall. left. reflexivity.
Qed.

(** ** db/repositories/specifications.py: [get_by_project] *)

(** X16.  When [get_by_project] does not take its answer from the cache
    (cache disabled, nothing stored for the project, or empty bytes stored),
    it raises [PermissionError] for a caller who does not own the project;
    for the owner it returns the project's specifications, each once, in
    ascending order index, and if the project's indexes are [0 .. count-1]
    the returned list carries them in exactly this order.  Either way the
    cache afterwards is the cache before: the attempt to store the list is
    refused by the client and swallowed, so the next call reads the table
    and checks ownership again. *)
Theorem get_by_project_reads_table (db : Database)
    (cache : SpecificationRepository.Cache) (project_id : Z) (owner_id : string)
    (use_cache : bool) :
  use_cache = false
  \/ SpecificationRepository._get_from_cache cache project_id = None
  \/ SpecificationRepository._get_from_cache cache project_id = Some "" ->
  (SpecificationRepository.owns_project db project_id owner_id = false ->
   SpecificationRepository.get_by_project db cache project_id owner_id use_cache
   = (Raise (PermissionError ERROR_MESSAGES.PROJECT_ACCESS_DENIED), cache))
  /\ (SpecificationRepository.owns_project db project_id owner_id = true ->
      exists l,
        SpecificationRepository.get_by_project db cache project_id owner_id use_cache
        = (Ok (SpecificationRepository.Rows l), cache)
        /\ Permutation l (SpecificationRepository.specifications_of db project_id)
        /\ StronglySorted (key_le Specification.order_index) l
        /\ (project_dense db project_id ->
            map Specification.order_index l = zrange (List.length l))).
Proof.
  intros Hmiss.
  assert (Hbody :
    SpecificationRepository.get_by_project db cache project_id owner_id use_cache
    = if negb (SpecificationRepository.owns_project db project_id owner_id)
      then (Raise (PermissionError ERROR_MESSAGES.PROJECT_ACCESS_DENIED), cache)
      else (Ok (SpecificationRepository.Rows
                  (order_by Specification.order_index
                     (SpecificationRepository.specifications_of db project_id))),
            cache)).
  { unfold SpecificationRepository.get_by_project.
    destruct Hmiss as [Hoff | [Hnone | Hempty]].
    - subst use_cache. reflexivity.
    - rewrite Hnone. destruct use_cache; reflexivity.
    - rewrite Hempty. destruct use_cache; reflexivity. }
  rewrite Hbody. split; intros Hown; rewrite Hown; [reflexivity |].
  cbn [negb]. eexists. split; [reflexivity |].
  split; [apply order_by_perm |]. split; [apply order_by_strongly_sorted |].
  intros Hdense. unfold project_dense in Hdense.
  pose proof (order_by_perm Specification.order_index
                (SpecificationRepository.specifications_of db project_id)) as Hperm.
  apply ascending_permutation_unique.
  - apply ascending_keys, order_by_strongly_sorted.
  - apply zrange_ascending.
  - rewrite (Permutation_length Hperm).
    apply perm_trans with
      (map Specification.order_index
           (SpecificationRepository.specifications_of db project_id));
      [apply Permutation_map, Hperm | exact Hdense].
Qed.

Lemma get_by_project_reads_table_witness :
  (exists l,
     SpecificationRepository.get_by_project db_five_specifications [] 1
       test_owner true
     = (Ok (SpecificationRepository.Rows l), [])
     /\ map Specification.order_index l = [0; 1; 2; 3; 4])
  /\ SpecificationRepository.get_by_project db_five_specifications [] 1
       "someone else" true
     = (Raise (PermissionError ERROR_MESSAGES.PROJECT_ACCESS_DENIED), []).
Proof.
  destruct (get_by_project_reads_table db_five_specifications [] 1
              test_owner true) as [_ Howner];
    [right; left; reflexivity |].
  destruct (get_by_project_reads_table db_five_specifications [] 1
              "someone else" true) as [Hother _];
    [right; left; reflexivity |].
  split; [| apply Hother; reflexivity].
  destruct (Howner eq_refl) as [l [Hrun [_ [_ Hidx]]]].
  exists l. split; [exact Hrun |].
  assert (Hl : l = specifications db_five_specifications).
  { assert (E : SpecificationRepository.get_by_project db_five_specifications
                  [] 1 test_owner true
                = (Ok (SpecificationRepository.Rows
                         (specifications db_five_specifications)), []))
      by reflexivity.
    rewrite E in Hrun. injection Hrun as Hl. symmetry. exact Hl. }
  subst l. reflexivity.
Defined.

(** ** services/items.py *)

Lemma listing_zlength (db : Database) (s : Z) :
  zlength (order_by Item.order_index (items_of db s)) = zlength (items_of db s).
Proof.
  unfold zlength. f_equal. apply Permutation_length, order_by_perm.
Qed.

Lemma response_ids (l : list Item.Item) :
  map ItemService.resp_item_id (map ItemService.response_of l) = map Item.item_id l.
Proof. rewrite map_map. reflexivity. Qed.

Lemma response_indices (l : list Item.Item) :
  map ItemService.resp_order_index (map ItemService.response_of l)
  = map Item.order_index l.
Proof. rewrite map_map. reflexivity. Qed.

(** X19.  The service's [create_item] always hands the repository an explicit
    index, so the repository never computes one: the call is the
    repository's [create_item] with that index (the service's own count check
    changes no outcome), a created item is stored at exactly the index asked
    for, after the rows already there, and in a specification whose indexes
    are [0 .. count-1] they stay so exactly when the index asked for is the
    count. *)
Theorem create_item_service_keeps_given_index (db : Database)
    (d : ItemService.ItemCreate) :
  let s := ItemService.spec_id d in
  let i := ItemService.order_index d in
  ItemService.create_item db d
  = (r <- ItemRepository.create_item db
            (ItemRepository.mkItemData s (ItemService.content d) (Some i)) ;;
     Ok (ItemService.response_of (fst r), snd r))
  /\ (forall resp db',
        ItemService.create_item db d = Ok (resp, db') ->
        ItemService.resp_order_index resp = i
        /\ ItemService.resp_item_id resp = items_seq db
        /\ items db'
           = items db ++ [Item.mk (items_seq db) s (ItemService.resp_content resp) i]
        /\ (dense db s -> (dense db' s <-> i = zlength (items_of db s)))).
Proof.
  intros s i.
  assert (Hsame :
    ItemService.create_item db d
    = (r <- ItemRepository.create_item db
              (ItemRepository.mkItemData s (ItemService.content d) (Some i)) ;;
       Ok (ItemService.response_of (fst r), snd r))).
  { unfold ItemService.create_item, ItemRepository.get_by_specification.
    cbn [bind]. rewrite listing_zlength. fold s.
    destruct (zlength (items_of db s) >=? DATABASE_CONSTANTS.MAX_ITEMS_PER_SPECIFICATION)
      eqn:Hcount; [| reflexivity].
    rewrite create_item_full; [reflexivity |]. simpl. lia. }
  split; [exact Hsame |].
  intros resp db' Hrun. rewrite Hsame in Hrun.
  destruct (ItemRepository.create_item db
              (ItemRepository.mkItemData s (ItemService.content d) (Some i)))
    as [[it db2] | e] eqn:Hrepo; cbn [bind fst snd] in Hrun; [| discriminate Hrun].
  injection Hrun as Hresp Hdb. subst resp db2.
  destruct (create_item_inv db db' _ it Hrepo) as [Hrows [_ [Hid [Hspec Hidx]]]].
  simpl in Hspec, Hidx.
  split; [exact Hidx |]. split; [exact Hid |].
  assert (Hit : it = Item.mk (items_seq db) s (Item.content it) i)
    by (destruct it; simpl in *; subst; reflexivity).
  split; [rewrite Hrows; simpl; rewrite <- Hit; reflexivity |].
  intros Hdense. unfold dense in *. unfold items_of in *. rewrite Hrows, filter_app.
  simpl. replace (Item.spec_id it =? s) with true by lia.
  rewrite map_app, length_app. simpl. rewrite Nat.add_1_r, Hidx.
  set (rows := filter (fun x => Item.spec_id x =? s) (items db)) in *.
  unfold zlength. split.
  - intros Hnew.
    rewrite <- (length_map Item.order_index rows) in Hnew.
    replace (S (List.length (map Item.order_index rows)))
      with (List.length (map Item.order_index rows ++ [i])) in Hnew
      by (rewrite length_app; simpl; lia).
    apply dense_indices_iff in Hnew. destruct Hnew as [Hnd Hrange].
    assert (Hi : 0 <= i < Z.of_nat (List.length (map Item.order_index rows ++ [i])))
      by (apply Hrange, in_or_app; right; left; reflexivity).
    rewrite length_app, length_map in Hi. simpl in Hi.
    destruct (Z.eq_dec i (Z.of_nat (List.length rows))) as [Heq | Hne]; [exact Heq |].
    exfalso. apply NoDup_remove_2 in Hnd. apply Hnd. rewrite app_nil_r.
    apply (Permutation_in i (Permutation_sym Hdense)). apply zrange_In. lia.
  - intros Hi. rewrite Hi, zrange_succ. apply Permutation_app_tail. exact Hdense.
Qed.

Lemma create_item_service_keeps_given_index_witness :
  exists db',
    ItemService.create_item db_three_items (ItemService.mkItemCreate 7 "d" 0)
    = Ok (ItemService.mkItemResponse 4 "d" 0, db')
    /\ map Item.order_index (items db') = [0; 1; 2; 0]
    /\ ~ dense db' 7.
Proof.
  destruct (create_item_service_keeps_given_index db_three_items
              (ItemService.mkItemCreate 7 "d" 0)) as [_ Hstored].
  eexists. split; [reflexivity |].
  destruct (Hstored _ _ eq_refl) as [_ [_ [Hrows Hdense]]].
  split; [rewrite Hrows; reflexivity |].
  intros Hbad. apply Hdense in Hbad; [discriminate Hbad |].
  apply Permutation_refl.
Defined.

(** X20.  The service's [get_items_by_specification] raises [ValueError]
    exactly for an id that is zero or negative.  For a positive id it
    answers with one entry per item of the specification, in ascending order
    index; when the specification's indexes are [0 .. count-1] the entries
    carry them in exactly this order, and for an id that names no
    specification it answers with the empty list, not with an error, as long
    as every item has its parent. *)
Theorem get_items_by_specification_outcome (db : Database) (spec_id : Z) :
  (spec_id <= 0 ->
   ItemService.get_items_by_specification db spec_id
   = Raise (ValueError "Invalid specification ID"))
  /\ (0 < spec_id ->
      exists l,
        ItemService.get_items_by_specification db spec_id = Ok l
        /\ Permutation l (map ItemService.response_of (items_of db spec_id))
        /\ StronglySorted Z.le (map ItemService.resp_order_index l)
        /\ (dense db spec_id ->
            map ItemService.resp_order_index l = zrange (List.length l))
        /\ (items_have_parents db -> specification_exists db spec_id = false ->
            l = [])).
Proof.
  unfold ItemService.get_items_by_specification, ItemRepository.get_by_specification.
  split; intros Hid.
  - replace (spec_id <=? 0) with true by lia. reflexivity.
  - replace (spec_id <=? 0) with false by lia. cbn [bind].
    eexists. split; [reflexivity |].
    pose proof (order_by_perm Item.order_index (items_of db spec_id)) as Hperm.
    split; [apply Permutation_map, Hperm |].
    rewrite response_indices.
    split; [apply ascending_keys, order_by_strongly_sorted |]. split.
    + intros Hdense. unfold dense in Hdense. rewrite length_map.
      apply ascending_permutation_unique.
      * apply ascending_keys, order_by_strongly_sorted.
      * apply zrange_ascending.
      * rewrite (Permutation_length Hperm).
        apply perm_trans with (map Item.order_index (items_of db spec_id));
          [apply Permutation_map, Hperm | exact Hdense].
    + intros Hparents Hmissing.
      destruct (items_of db spec_id) as [| it rest] eqn:Hrows; [reflexivity |].
      exfalso.
      assert (Hin : In it (items_of db spec_id)) by (rewrite Hrows; left; reflexivity).
      apply in_items_of in Hin. destruct Hin as [Hin Hs].
      specialize (Hparents it Hin). rewrite Hs in Hparents. congruence.
Qed.

Lemma update_order_listing (db db' : Database) (s : Z)
    (ups : list ItemRepository.OrderUpdate) (l : list Item.Item) :
  ItemRepository.update_order db s ups = Ok (l, db') ->
  l = order_by Item.order_index (items_of db' s).
Proof.
  unfold ItemRepository.update_order, ItemRepository.get_by_specification.
  destruct (negb (Nat.eqb _ _)); [discriminate |].
  destruct (ItemRepository.write_updates (items db) ups) as [rows | e];
    cbn [bind]; [| discriminate].
  intros H. injection H as Hl Hdb. subst db'. symmetry. exact Hl.
Qed.

Lemma unnamed_rows (rows : list Item.Item) (s : Z) :
  filter (fun it => (Item.spec_id it =? s) && mem (Item.item_id it) []) rows = [].
Proof.
  induction rows as [| r rows IH]; simpl; [reflexivity |].
  rewrite andb_false_r. exact IH.
Qed.

(** X21.  The service's [reorder_items] with an empty list of updates succeeds,
    changes nothing and answers with the whole specification.  Whenever it
    succeeds, the answer holds every item of the specification, named in the
    updates or not, each once, in ascending order of the new indexes, and the
    items table has as many rows as before. *)
Theorem reorder_items_lists_whole_specification (db : Database) (s : Z) :
  ItemService.reorder_items db s []
  = Ok (map ItemService.response_of (order_by Item.order_index (items_of db s)), db)
  /\ (forall ups l db',
        ItemService.reorder_items db s ups = Ok (l, db') ->
        Permutation (map ItemService.resp_item_id l)
                    (map Item.item_id (items_of db s))
        /\ StronglySorted Z.le (map ItemService.resp_order_index l)
        /\ List.length (items db') = List.length (items db)).
Proof.
  split.
  - unfold ItemService.reorder_items, ItemRepository.update_order,
      ItemRepository.get_by_specification.
    cbn [map]. rewrite unnamed_rows.
    cbn [List.length Nat.eqb negb ItemRepository.write_updates bind fst snd].
    replace (set_items db (items db)) with db by (destruct db; reflexivity).
    reflexivity.
  - intros ups l db' Hrun. unfold ItemService.reorder_items in Hrun.
    destruct (ItemRepository.update_order db s ups) as [[found db2] | e] eqn:Hrepo;
      cbn [bind fst snd] in Hrun; [| discriminate Hrun].
    injection Hrun as Hl Hdb. subst l db2.
    pose proof (update_order_listing db db' s ups found Hrepo) as Hfound.
    apply update_order_inv in Hrepo. subst db'. subst found.
    rewrite response_ids, response_indices.
    split; [| split].
    + eapply perm_trans; [apply Permutation_map, order_by_perm |].
      unfold items_of. cbn [items set_items]. rewrite apply_updates_rows.
      rewrite filter_map_same_test by (intros x; reflexivity).
      rewrite map_map. apply Permutation_refl.
    + apply ascending_keys, order_by_strongly_sorted.
    + cbn [items set_items]. rewrite apply_updates_rows. apply length_map.
Qed.
